(** * APO Quantum Logos: the signature engine and the fallback orchestrator

    A shallow embedding of the client class [APOQuantumLogos]
    (calculateQuantumSignature, isVowel, offlineAnalysis,
    analyzeConsciousness, checkAPIConnection, loadSustainabilityMetrics,
    getDefaultMetrics) and the properties of its specification.

    JavaScript numbers are IEEE 754 binary64 values.  They are modelled by
    the Standard Library's [spec_float] at precision 53 and maximal exponent
    1024, whose operations round to nearest, ties to even, as the language
    requires.  Integer-valued numbers that stay below 2^53 in magnitude
    (code units, results of the 32-bit conversions, remainders, the
    frequency) are exact in binary64 and are carried as [Z]. *)

From Stdlib Require Import ZArith List String Ascii Bool Lia.
From Stdlib Require Import Floats.SpecFloat.
Import ListNotations.

Local Open Scope string_scope.
Local Open Scope list_scope.
Local Open Scope Z_scope.

(** ** JavaScript numbers *)

Module JSNumber.

Definition prec : Z := 53.
Definition emax : Z := 1024.

Definition num : Type := spec_float.

(** The number denoted by an integer literal or by an integer result:
    the binary64 value nearest to [z] ([z] itself when [|z| < 2^53]). *)
Definition of_Z (z : Z) : num := binary_normalize prec emax z 0 false.

(** A decimal literal with numerator [n] and denominator [d] = 10^k, both
    exact in binary64: the correctly rounded quotient is the value the
    literal denotes. *)
Definition decimal (n d : Z) : num := SFdiv prec emax (of_Z n) (of_Z d).

Definition mul : num -> num -> num := SFmul prec emax.
Definition add : num -> num -> num := SFadd prec emax.
Definition div : num -> num -> num := SFdiv prec emax.
Definition leb : num -> num -> bool := SFleb.
Definition ltb : num -> num -> bool := SFltb.

(** The integer part toward zero of a number; NaN, the infinities and the
    zeros give 0 (the first step of ToInt32 and ToUint32). *)
Definition truncate (x : num) : Z :=
  match x with
  | S754_finite s m e =>
      let a := match e with
               | Zneg p => Z.shiftr (Zpos m) (Zpos p)
               | _ => Z.shiftl (Zpos m) e
               end in
      if s then - a else a
  | _ => 0
  end.

Definition two32 : Z := 4294967296.
Definition two31 : Z := 2147483648.

(** ToUint32, the conversion applied by [x >>> 0]. *)
Definition ToUint32 (x : num) : Z := truncate x mod two32.

(** ToInt32, the conversion applied to the operands of [^]. *)
Definition ToInt32 (x : num) : Z :=
  let u := ToUint32 x in
  if two31 <=? u then u - two32 else u.

(** [a ^ b] on numbers: both operands through ToInt32, bitwise exclusive
    or on the two's complement integers. *)
Definition bxor (a b : num) : num :=
  of_Z (Z.lxor (ToInt32 a) (ToInt32 b)).

End JSNumber.

Import JSNumber.

(** ** JavaScript values and strings *)

(** A string is its sequence of UTF-16 code units, each in [0, 65535]:
    [text.charCodeAt(position)] is the element at [position]. *)
Definition jsstring : Type := list Z.

Definition is_utf16 (s : jsstring) : bool :=
  forallb (fun c => (0 <=? c) && (c <? 65536)) s.

(** The code units of an ASCII text written as a Rocq string. *)
Definition text_of (s : string) : jsstring :=
  map (fun a => Z.of_N (N_of_ascii a)) (list_ascii_of_string s).

(** The values [calculateQuantumSignature] can be handed. *)
Inductive jsval : Type :=
| JUndefined
| JNull
| JBool (b : bool)
| JNumber (x : num)
| JString (s : jsstring)
| JObject.

(** [typeof v === 'string'] *)
Definition is_string (v : jsval) : bool :=
  match v with JString _ => true | _ => false end.

(** ToBoolean: [undefined], [null], [false], the zeros, NaN and the empty
    string are falsy, everything else is truthy. *)
Definition truthy (v : jsval) : bool :=
  match v with
  | JUndefined | JNull => false
  | JBool b => b
  | JNumber (S754_zero _) | JNumber S754_nan => false
  | JNumber _ => true
  | JString [] => false
  | JString (_ :: _) => true
  | JObject => true
  end.

(** ** The signature engine *)

Module SignatureEngine.

(** [this.corporateSignature = 'ALPHA-PI-OMEGA-2024'] *)
Definition corporateSignature : string := "ALPHA-PI-OMEGA-2024".

(** [char.toLowerCase()] on the one-unit string of a code unit: the
    ASCII capitals move to their small letters.  Code units outside ASCII
    are left as they are here, which is exact for the test below: no code
    unit outside ASCII lower-cases to one of the strings "a", "e", "i",
    "o", "u" (U+0130 lower-cases to the two-unit string "i" followed by
    U+0307, which 'aeiou' does not contain). *)
Definition toLowerCase (charCode : Z) : Z :=
  if (65 <=? charCode) && (charCode <=? 90) then charCode + 32 else charCode.

(** [String.fromCharCode(charCode)]: the code unit [charCode] modulo 2^16. *)
Definition fromCharCode (charCode : Z) : Z := charCode mod 65536.

(** [isVowel(charCode)]: ['aeiou'.includes(char)] for the one-unit string
    [char = String.fromCharCode(charCode).toLowerCase()]. *)
Definition isVowel (charCode : Z) : bool :=
  existsb (Z.eqb (toLowerCase (fromCharCode charCode))) [97; 101; 105; 111; 117].

(** The two variables the loop updates. *)
Record loop_state : Type := {
  quantumHash : num;
  consciousnessModulator : num
}.

(** [let quantumHash = 0x811c9dc5; let consciousnessModulator = 1;] *)
Definition loop_init : loop_state :=
  {| quantumHash := of_Z 2166136261; consciousnessModulator := of_Z 1 |}.

(** The [switch (character % 9)] statement: the amount added to the hash. *)
Definition enhancement (character : Z) : option Z :=
  match Z.rem character 9 with
  | 0 => Some 174
  | 1 => Some 285
  | 2 => Some 396
  | 3 => Some 417
  | 4 => Some 528
  | 5 => Some 639
  | 6 => Some 741
  | 7 => Some 852
  | 8 => Some 963
  | _ => None
  end.

(** One iteration of the loop body, for the code unit [character]. *)
Definition loop_body (st : loop_state) (character : Z) : loop_state :=
  (* quantumHash ^= character; *)
  let h1 := bxor (quantumHash st) (of_Z character) in
  (* quantumHash *= 0x01000193; *)
  let h2 := mul h1 (of_Z 16777619) in
  (* if (this.isVowel(character)) consciousnessModulator *= 1.618; *)
  let m := if isVowel character
           then mul (consciousnessModulator st) (decimal 1618 1000)
           else consciousnessModulator st in
  (* switch (character % 9) { case k: quantumHash += ...; break; } *)
  let h3 := match enhancement character with
            | Some bonus => add h2 (of_Z bonus)
            | None => h2
            end in
  {| quantumHash := h3; consciousnessModulator := m |}.

(** The loop over the positions [0 .. text.length - 1]. *)
Definition run_loop (text : jsstring) : loop_state :=
  fold_left loop_body text loop_init.

(** [let apoSignature = this.corporateSignature.length;] *)
Definition apoSignature : Z := Z.of_nat (String.length corporateSignature).

(** The statements after the guard, for a string [text]:
    [Math.abs((quantumHash * consciousnessModulator + apoSignature) >>> 0)]. *)
Definition signature_of_string (text : jsstring) : Z :=
  let st := run_loop text in
  Z.abs (ToUint32 (add (mul (quantumHash st) (consciousnessModulator st))
                       (of_Z apoSignature))).

(** [calculateQuantumSignature(text)]: the guard
    [if (!text || typeof text !== 'string') return 0;] and then the hash. *)
Definition calculateQuantumSignature (text : jsval) : Z :=
  if negb (truthy text) || negb (is_string text) then 0
  else match text with
       | JString s => signature_of_string s
       | _ => 0
       end.

End SignatureEngine.

Import SignatureEngine.


(** ** Analysis results *)

Module Analysis.

(** The object under [healing_analysis]. *)
Record healing_analysis : Type := {
  consciousness_frequency : num;
  healing_resonance : num;
  regenerative_score : num;
  trees_planted_equivalent : num;
  healing_grade : string;
  intention_amplification : string
}.

(** The object under [sustainability_impact]. *)
Record sustainability_impact : Type := {
  renewable_energy_used : string;
  carbon_footprint : string;
  consciousness_elevation : string;
  planetary_healing_contribution : string
}.

(** The result object of an analysis, from the service or computed here. *)
Record result : Type := {
  healing : healing_analysis;
  sustainability : sustainability_impact;
  analysis_mode : string;
  apo_signature : string
}.

(** [(signature % 100) / 100] *)
Definition consciousness_of (signature : Z) : num :=
  div (of_Z (Z.rem signature 100)) (of_Z 100).

(** [400 + (signature % 200)] *)
Definition frequency_of (signature : Z) : Z :=
  400 + Z.rem signature 200.

(** [frequency > 500 ? 'A+' : frequency > 450 ? 'A' : 'B+'] *)
Definition grade_of (frequency : Z) : string :=
  if 500 <? frequency then "A+"
  else if 450 <? frequency then "A"
  else "B+".

(** [offlineAnalysis(text, intention)] *)
Definition offlineAnalysis (text : jsval) (intention : string) : result :=
  let signature := calculateQuantumSignature text in
  let consciousness := consciousness_of signature in
  let frequency := frequency_of signature in
  {| healing :=
       {| consciousness_frequency := of_Z frequency;
          healing_resonance := mul consciousness (of_Z 1000);
          regenerative_score := mul consciousness (decimal 8 10);
          trees_planted_equivalent := decimal 1 10;
          healing_grade := grade_of frequency;
          intention_amplification := intention |};
     sustainability :=
       {| renewable_energy_used := "100% solar";
          carbon_footprint := "negative";
          consciousness_elevation := "positive";
          planetary_healing_contribution := "active" |};
     analysis_mode := "offline";
     apo_signature := corporateSignature |}.

End Analysis.

(** ** Sustainability metrics *)

Module Metrics.

Record snapshot : Type := {
  total_analyses_performed : num;
  carbon_offset_generated : num;
  trees_planted_equivalent : num;
  renewable_energy_used : num;
  consciousness_elevation_events : num;
  planetary_healing_score : num
}.

(** [getDefaultMetrics()] *)
Definition getDefaultMetrics : snapshot :=
  {| total_analyses_performed := of_Z 1234;
     carbon_offset_generated := decimal 25914 10;
     trees_planted_equivalent := decimal 1234 10;
     renewable_energy_used := of_Z 6787;
     consciousness_elevation_events := of_Z 1234;
     planetary_healing_score := decimal 89 100 |}.

End Metrics.

(** ** The client: state, page, service and effects *)

Module Client.

Import Analysis.

(** A body parsed from the JSON of an answer, as the method that receives it
    meets it: either every read and display the method makes of it
    completes, [Shaped a] giving the fields as they are read, or one of
    them throws (the body is [null], a field that is formatted with
    [toFixed] is not a number, ...).  A display that throws does so while
    it builds its text, before it writes to the page, and the second display
    of an analysis throws only on a body on which the first, when it draws,
    has thrown: a body that cannot be shown leaves the page as it was. *)
Inductive parsed (A : Type) : Type :=
| Shaped (a : A)
| IllShaped.
Arguments Shaped {A} a.
Arguments IllShaped {A}.

(** The fields of the instance that the methods below write.
    [isOfflineMode] is not set by the constructor, so it is [undefined]
    ([None]) until a method assigns it.  [sustainabilityMetrics] holds
    whatever body the last assignment stored. *)
Record state : Type := {
  isOfflineMode : option bool;
  analysisHistory : list result;
  sustainabilityMetrics : option (parsed Metrics.snapshot)
}.

(** The instance as the constructor leaves it:
    [this.sustainabilityMetrics = {}; this.analysisHistory = [];]. *)
Definition constructed : state :=
  {| isOfflineMode := None; analysisHistory := []; sustainabilityMetrics := None |}.

(** ToBoolean of the flag: [undefined] and [false] are falsy. *)
Definition offline (st : state) : bool :=
  match isOfflineMode st with Some true => true | _ => false end.

Definition set_offline (st : state) : state :=
  {| isOfflineMode := Some true;
     analysisHistory := analysisHistory st;
     sustainabilityMetrics := sustainabilityMetrics st |}.

Definition push_history (r : result) (st : state) : state :=
  {| isOfflineMode := isOfflineMode st;
     analysisHistory := analysisHistory st ++ [r];
     sustainabilityMetrics := sustainabilityMetrics st |}.

Definition set_metrics (m : parsed Metrics.snapshot) (st : state) : state :=
  {| isOfflineMode := isOfflineMode st;
     analysisHistory := analysisHistory st;
     sustainabilityMetrics := Some m |}.

(** What the methods read from the page. *)
Record page : Type := {
  (** [this.elements.textInput?.value] *)
  textInput : option jsstring;
  (** [document.getElementById('analysis-intention')?.value] *)
  analysis_intention : option string;
  (** [this.elements.emailInput?.value] *)
  emailInput : option jsstring;
  (** whether [this.elements.analyzeBtn] is an element; it is one on the
      interface [createMainInterface] builds *)
  analyzeBtn : bool
}.

(** What a [fetch] comes to: the promise rejects, or a response arrives
    with its [ok] flag and the outcome of [response.json()] ([None] when
    that rejects, a parsed body otherwise). *)
Inductive response (A : Type) : Type :=
| Rejected
| Answered (ok : bool) (body : option A).
Arguments Rejected {A}.
Arguments Answered {A} ok body.

(** The call succeeded: a response with [ok] and a parsed body. *)
Definition succeeded {A} (r : response A) : option A :=
  match r with
  | Answered true (Some body) => Some body
  | _ => None
  end.

Inductive endpoint : Type :=
| Root                    (** [`${apiBaseUrl}/`] *)
| HealingAnalysis         (** [`${apiBaseUrl}/healing-analysis`] *)
| FreeTrial               (** [`${apiBaseUrl}/api/free-trial`] *)
| SustainabilityMetrics.  (** [`${apiBaseUrl}/api/sustainability-metrics`] *)

(** The result object of [offlineTrialAnalysis], or the service's. *)
Record trial : Type := {
  consciousness_signature : Z;
  healing_potential : num;
  healing_frequency : Z;
  trial_regenerative_score : num;
  analysis_type : string
}.

(** The effects a method performs, in order.  Messages are given without
    the pictograph that starts some of them, and the two messages that end
    with the text of an exception are given up to that text. *)
Inductive event : Type :=
| Fetch (e : endpoint)
| UpdateStatus (status message : string)
| ShowError (message : string)
| ShowInfo (message : string)
| ShowSuccess (message : string)
| DisplayAnalysisResults (r : result)
| UpdateConsciousnessDisplay (r : result)
| DisplayTrialResults (r : trial)
| DisplayFrequency (frequency : Z)
| DisplaySustainabilityMetrics (m : Metrics.snapshot).

(** How a call of an async method ends: it returns (its promise
    fulfils), or an exception leaves it (its promise rejects). *)
Inductive completion : Type := Returned | Thrown.

Record outcome : Type := {
  ended : completion;
  final : state;
  effects : list event
}.

(** The argument a string read from the page makes. *)
Definition value_of (v : option jsstring) : jsval :=
  match v with Some s => JString s | None => JUndefined end.

(** [checkAPIConnection()]; [remote] is what the fetch of the root comes
    to, its body the [service] name when the answer carries one.  A parsed
    body on which [data.service] or its conversion to text throws ends in
    the [catch], like every other failure. *)
Definition checkAPIConnection (remote : response (parsed (option string)))
           (st : state) : outcome :=
  match succeeded remote with
  | Some (Shaped service) =>
      let name := match service with
                  | Some (String _ _ as s) => s
                  | _ => "APO API"
                  end in
      {| ended := Returned; final := st;
         effects := [Fetch Root; UpdateStatus "connected" (String.append "Connected to " name)] |}
  | _ =>
      {| ended := Returned; final := set_offline st;
         effects := [Fetch Root; UpdateStatus "offline" "Running in offline mode"] |}
  end.

(** [document.getElementById('analysis-intention')?.value || 'healing'] *)
Definition intention_of (pg : page) : string :=
  match analysis_intention pg with
  | Some (String _ _ as s) => s
  | _ => "healing"
  end.

Definition enter_text : string := "Please enter text for analysis".
Definition upgrade_notice : string :=
  "Experience full Alpha Pi Omega features at www.alphapiomega.com".
Definition analysis_failed : string := "Analysis failed: ".

(** The end of the [try] of [analyzeConsciousness] once [result] is set to
    a result that can be displayed: the two displays, the push, and the
    upgrade notice when the flag is set at that moment. *)
Definition conclude (r : result) (st : state) : outcome :=
  let st2 := push_history r st in
  {| ended := Returned;
     final := st2;
     effects := [DisplayAnalysisResults r; UpdateConsciousnessDisplay r]
                ++ (if offline st2 then [ShowInfo upgrade_notice] else []) |}.

(** How far a call of [analyzeConsciousness] gets before it awaits. *)
Inductive started : Type :=
| Finished (o : outcome)
| Fetching (text : jsval) (intention : string).

(** [analyzeConsciousness()] up to its first [await]: the guard, the write
    to the button, the test of the flag.  With the flag set the whole call
    runs here, without awaiting; otherwise the fetch is issued. *)
Definition analyze_begin (pg : page) (st : state) : started :=
  let text := value_of (textInput pg) in
  let intention := intention_of pg in
  if negb (truthy text) then
    (* this.showError(...); return; *)
    Finished {| ended := Returned; final := st; effects := [ShowError enter_text] |}
  else if negb (analyzeBtn pg) then
    (* this.elements.analyzeBtn.textContent = ... on a missing element *)
    Finished {| ended := Thrown; final := st; effects := [] |}
  else if negb (offline st) then Fetching text intention
  else Finished (conclude (offlineAnalysis text intention) st).

(** [analyzeConsciousness()] from the answer of the fetch on, run on the
    instance as it is when the answer arrives.  A failed fetch goes to the
    inner [catch]; a parsed body that the displays cannot show throws into
    the outer [catch], which reports it and appends nothing. *)
Definition analyze_resume (text : jsval) (intention : string)
           (remote : response (parsed result)) (st : state) : outcome :=
  match succeeded remote with
  | Some (Shaped r) => conclude r st
  | Some IllShaped =>
      (* catch (error): this.showError('Analysis failed: ' + error.message) *)
      {| ended := Returned; final := st; effects := [ShowError analysis_failed] |}
  | None =>
      (* catch (apiError): this.isOfflineMode = true; result = this.offlineAnalysis(...) *)
      conclude (offlineAnalysis text intention) (set_offline st)
  end.

(** [analyzeConsciousness()] when no other call runs during its awaits;
    [remote] is what the fetch of the analysis endpoint comes to, should
    the method issue it. *)
Definition analyzeConsciousness (pg : page) (remote : response (parsed result))
           (st : state) : outcome :=
  match analyze_begin pg st with
  | Finished o => o
  | Fetching text intention =>
      let o := analyze_resume text intention remote st in
      {| ended := ended o; final := final o;
         effects := Fetch HealingAnalysis :: effects o |}
  end.

(** [offlineTrialAnalysis(email, text)] *)
Definition offlineTrialAnalysis (email text : jsval) : trial :=
  let signature := calculateQuantumSignature text in
  {| consciousness_signature := signature;
     healing_potential := consciousness_of signature;
     healing_frequency := frequency_of signature;
     trial_regenerative_score := mul (consciousness_of signature) (decimal 8 10);
     analysis_type := "offline_trial" |}.

Definition enter_both : string :=
  "Please enter both email and text for free trial".
Definition trial_complete : string :=
  "Free trial analysis complete! Visit www.alphapiomega.com for more features.".
Definition trial_failed : string := "Trial analysis failed: ".

(** [handleFreeTrial(event)]; a parsed body that [displayTrialResults]
    cannot show throws into the outer [catch]. *)
Definition handleFreeTrial (pg : page) (remote : response (parsed trial))
           (st : state) : outcome :=
  let email := value_of (emailInput pg) in
  let text := value_of (textInput pg) in
  if negb (truthy email) || negb (truthy text) then
    {| ended := Returned; final := st; effects := [ShowError enter_both] |}
  else
    match succeeded remote with
    | Some IllShaped =>
        {| ended := Returned; final := st;
           effects := [Fetch FreeTrial; ShowError trial_failed] |}
    | Some (Shaped r) =>
        {| ended := Returned; final := st;
           effects := [Fetch FreeTrial; DisplayTrialResults r; ShowSuccess trial_complete] |}
    | None =>
        {| ended := Returned; final := st;
           effects := [Fetch FreeTrial;
                       DisplayTrialResults (offlineTrialAnalysis email text);
                       ShowSuccess trial_complete] |}
    end.

(** [updateRealTimeMetrics()] *)
Definition updateRealTimeMetrics (pg : page) (st : state) : outcome :=
  let text := match textInput pg with Some s => s | None => [] end in
  match text with
  | [] => {| ended := Returned; final := st; effects := [] |}
  | _ :: _ =>
      let textHash := calculateQuantumSignature (JString text) in
      {| ended := Returned; final := st;
         effects := [DisplayFrequency (400 + Z.rem textHash 200)] |}
  end.

(** [loadSustainabilityMetrics()].  The parsed body is stored before it is
    displayed; when its display throws, the [catch] displays the default
    and the body stays stored. *)
Definition loadSustainabilityMetrics (remote : response (parsed Metrics.snapshot))
           (st : state) : outcome :=
  match succeeded remote with
  | Some (Shaped metrics) =>
      {| ended := Returned; final := set_metrics (Shaped metrics) st;
         effects := [Fetch SustainabilityMetrics; DisplaySustainabilityMetrics metrics] |}
  | Some IllShaped =>
      (* this.sustainabilityMetrics = metrics; the display throws; catch (error) *)
      {| ended := Returned; final := set_metrics IllShaped st;
         effects := [Fetch SustainabilityMetrics;
                     DisplaySustainabilityMetrics Metrics.getDefaultMetrics] |}
  | None =>
      (* catch (error): this.displaySustainabilityMetrics(this.getDefaultMetrics()) *)
      {| ended := Returned; final := st;
         effects := [Fetch SustainabilityMetrics;
                     DisplaySustainabilityMetrics Metrics.getDefaultMetrics] |}
  end.

(** The calls that can follow one another on an instance. *)
Inductive call : Type :=
| CheckAPIConnection (remote : response (parsed (option string)))
| AnalyzeConsciousness (pg : page) (remote : response (parsed result))
| HandleFreeTrial (pg : page) (remote : response (parsed trial))
| UpdateRealTimeMetrics (pg : page)
| LoadSustainabilityMetrics (remote : response (parsed Metrics.snapshot)).

Definition perform (c : call) (st : state) : outcome :=
  match c with
  | CheckAPIConnection remote => checkAPIConnection remote st
  | AnalyzeConsciousness pg remote => analyzeConsciousness pg remote st
  | HandleFreeTrial pg remote => handleFreeTrial pg remote st
  | UpdateRealTimeMetrics pg => updateRealTimeMetrics pg st
  | LoadSustainabilityMetrics remote => loadSustainabilityMetrics remote st
  end.

(** The state after a sequence of calls, each run to its end before the
    next ([Session.run_steps] admits calls that overlap). *)
Definition run (cs : list call) (st : state) : state :=
  fold_left (fun s c => final (perform c s)) cs st.

(** [init()] after the page is set up: the probe, then the first load of
    the metrics; the timer repeats the load afterwards. *)
Definition init (probe : response (parsed (option string)))
           (metrics : response (parsed Metrics.snapshot)) : list call :=
  [CheckAPIConnection probe; LoadSustainabilityMetrics metrics].

(** The states an instance goes through.  The constructor starts [init]
    without waiting for it, so calls made from the page may come before the
    probe as well as after it: any sequence of calls is admitted. *)
Definition reachable (st : state) : Prop :=
  exists cs, st = run cs constructed.

(** The assignments to the instance that the methods contain.  Calls that
    overlap (a second one started while the first awaits its fetch)
    interleave their synchronous parts; whatever the interleaving, the
    instance changes only by these assignments, one at a time. *)
Inductive assignment : state -> state -> Prop :=
| AssignOffline st :
    (* this.isOfflineMode = true; in checkAPIConnection and analyzeConsciousness *)
    assignment st (set_offline st)
| AssignHistory r st :
    (* this.analysisHistory.push(result); *)
    assignment st (push_history r st)
| AssignMetrics m st :
    (* this.sustainabilityMetrics = metrics; *)
    assignment st (set_metrics m st).

(** A finite sequence of assignments. *)
Inductive assignments : state -> state -> Prop :=
| assignments_nil st : assignments st st
| assignments_cons st1 st2 st3 :
    assignment st1 st2 -> assignments st2 st3 -> assignments st1 st3.

Definition fetches (evs : list event) : list endpoint :=
  flat_map (fun e => match e with Fetch p => [p] | _ => [] end) evs.

End Client.

(** ** Section 4.1 of the specification, in its own words *)

Module Reference.

(** The golden ratio as the specification writes it. *)
Definition golden : num := decimal 1618033988749895 1000000000000000.

(** The nine-entry table of step 2. *)
Definition solfeggio (k : Z) : Z :=
  match k with
  | 0 => 174 | 1 => 285 | 2 => 396 | 3 => 417 | 4 => 528
  | 5 => 639 | 6 => 741 | 7 => 852 | 8 => 963
  | _ => 0
  end.

(** "case-folded, is one of a e i o u" *)
Definition vowel (c : Z) : bool :=
  existsb (Z.eqb c) (text_of "aeiouAEIOU").

(** The unsigned 32-bit representation. *)
Definition abs32 (z : Z) : Z := z mod two32.

(** The nearest integer, halves upward; 0 where there is none. *)
Definition round (x : num) : Z :=
  match x with
  | S754_finite s m e =>
      let n := if s then Zneg m else Zpos m in
      match e with
      | Zneg p => (2 * n + 2 ^ Zpos p) / (2 * 2 ^ Zpos p)
      | _ => n * 2 ^ e
      end
  | _ => 0
  end.

Record acc : Type := { hash : Z; modulator : num }.

(** Step 1. *)
Definition start : acc := {| hash := 2166136261; modulator := of_Z 1 |}.

(** Step 2, for one character. *)
Definition step (a : acc) (c : Z) : acc :=
  let h := abs32 (Z.lxor (hash a) c * 16777619) in
  let m := if vowel c then mul (modulator a) golden else modulator a in
  {| hash := abs32 (h + solfeggio (c mod 9)); modulator := m |}.

(** Step 3. *)
Definition signature (salt : Z) (text : jsstring) : Z :=
  let a := fold_left step text start in
  abs32 (round (mul (of_Z (hash a)) (modulator a)) + salt).

End Reference.

(** ** What the engine computes, stated apart from the loop *)

Module Described.

Definition table : list Z := [174; 285; 396; 417; 528; 639; 741; 852; 963].

(** One character's effect on the hash: the hash held so far is reduced to
    a signed 32-bit integer and XORed with the code unit; the product with
    16777619 and the sum with the table entry are binary64 operations,
    rounded to 53 significant bits and not reduced modulo 2^32. *)
Definition hash_step (h : num) (c : Z) : num :=
  add (mul (of_Z (Z.lxor (ToInt32 h) c)) (of_Z 16777619))
      (of_Z (nth (Z.to_nat (c mod 9)) table 0)).

Definition hash_of (text : jsstring) : num :=
  fold_left hash_step text (of_Z 2166136261).

(** The number of characters among a e i o u A E I O U. *)
Definition vowels (text : jsstring) : nat :=
  List.length (filter Reference.vowel text).

(** 1.618 multiplied into 1, once per vowel, in binary64. *)
Definition modulator_of (text : jsstring) : num :=
  Nat.iter (vowels text) (fun m => mul m (decimal 1618 1000)) (of_Z 1).

(** The signature: 0 for the empty text; otherwise hash times modulator
    plus the salt in binary64, cut to its integer part and reduced to
    unsigned 32 bits. *)
Definition signature (salt : Z) (text : jsstring) : Z :=
  match text with
  | [] => 0
  | _ :: _ => ToUint32 (add (mul (hash_of text) (modulator_of text)) (of_Z salt))
  end.

End Described.

(** ** The gauges: numbers computed for the page *)

Module Gauges.

Import Analysis.

Definition sub : num -> num -> num := SFsub prec emax.

(** [x || d] on numbers: [d] replaces a zero or NaN. *)
Definition or_else (x d : num) : num :=
  if truthy (JNumber x) then x else d.

(** [Math.min(a, b)]: NaN when either is NaN; the negative zero is the
    smaller of the two zeros. *)
Definition Math_min (a b : num) : num :=
  match SFcompare a b with
  | None => S754_nan
  | Some Lt => a
  | Some Gt => b
  | Some Eq => match a with S754_zero true => a | _ => b end
  end.

(** [Math.PI], the binary64 value nearest to pi. *)
Definition Math_PI : num := S754_finite false 7074237752028440 (-51).

(** The numbers [updateConsciousnessDisplay(result)] computes, before they
    are formatted into the page. *)
Record gauge : Type := {
  frequency : num;       (** [consciousness_frequency || 528] *)
  percentage : num;      (** the width of the frequency bar *)
  score : num;           (** [(regenerative_score || 0) * 100] *)
  circumference : num;   (** [2 * Math.PI * 45] *)
  offset : num           (** the dash offset of the score circle *)
}.

(** [updateConsciousnessDisplay(result)] *)
Definition updateConsciousnessDisplay (r : result) : gauge :=
  let healingAnalysis := healing r in
  let frequency := or_else (consciousness_frequency healingAnalysis) (of_Z 528) in
  let percentage := Math_min (mul (div frequency (of_Z 1000)) (of_Z 100)) (of_Z 100) in
  let score := mul (or_else (regenerative_score healingAnalysis) (of_Z 0)) (of_Z 100) in
  let circumference := mul (mul (of_Z 2) Math_PI) (of_Z 45) in
  let offset := sub circumference (mul (div score (of_Z 100)) circumference) in
  {| frequency := frequency; percentage := percentage; score := score;
     circumference := circumference; offset := offset |}.

(** The width of the frequency bar in [updateRealTimeMetrics()], for the
    frequency it shows: [Math.min((frequency / 800) * 100, 100)]. *)
Definition realtime_percentage (frequency : Z) : num :=
  Math_min (mul (div (of_Z frequency) (of_Z 800)) (of_Z 100)) (of_Z 100).

(** The gauge of an offline result whose signature has the remainders [k]
    by 100 and [j] by 200. *)
Definition gauge_of_remainders (j k : Z) : gauge :=
  let c := div (of_Z k) (of_Z 100) in
  let f := or_else (of_Z (400 + j)) (of_Z 528) in
  let s := mul (or_else (mul c (decimal 8 10)) (of_Z 0)) (of_Z 100) in
  let circ := mul (mul (of_Z 2) Math_PI) (of_Z 45) in
  {| frequency := f;
     percentage := Math_min (mul (div f (of_Z 1000)) (of_Z 100)) (of_Z 100);
     score := s;
     circumference := circ;
     offset := sub circ (mul (div s (of_Z 100)) circ) |}.

End Gauges.

(** ** The environment: which service the page talks to *)

Module Environment.

(** [haystack.includes(needle)] *)
Fixpoint includes (haystack needle : string) : bool :=
  String.prefix needle haystack
  || match haystack with
     | EmptyString => false
     | String _ rest => includes rest needle
     end.

(** [detectEnvironment()], for [window.location.hostname] and
    [window.location.protocol]. *)
Definition detectEnvironment (hostname protocol : string) : string :=
  if String.eqb hostname "www.alphapiomega.com"
     || String.eqb hostname "alphapiomega.com" then
    String.append protocol "//www.alphapiomega.com/api"
  else if includes hostname "netlify.app" || includes hostname "netlify.com" then
    String.append protocol
      (String.append "//" (String.append hostname "/.netlify/functions"))
  else if String.eqb hostname "localhost" || String.eqb hostname "127.0.0.1" then
    "http://localhost:5000"
  else
    "https://www.alphapiomega.com/api".

End Environment.

(** ** The life cycle: [init()] *)

Module Lifecycle.

Import Client.

(** The methods the class [APOQuantumLogos] defines. *)
Definition methods : list string :=
  [ "constructor"; "detectEnvironment"; "initializeConsciousnessField"; "init";
    "setupUI"; "bindUIElements"; "createMainInterface"; "injectStyles";
    "bindEvents"; "checkAPIConnection"; "updateStatus"; "analyzeConsciousness";
    "offlineAnalysis"; "calculateQuantumSignature"; "isVowel";
    "displayAnalysisResults"; "injectResultStyles"; "handleFreeTrial";
    "offlineTrialAnalysis"; "displayTrialResults"; "injectTrialStyles";
    "updateConsciousnessDisplay"; "loadSustainabilityMetrics";
    "getDefaultMetrics"; "displaySustainabilityMetrics"; "updateRealTimeMetrics";
    "startRealTimeUpdates"; "animateConsciousnessField"; "showError";
    "showSuccess"; "showInfo"; "showNotification" ].

(** Whether [this.name] is a function; calling it throws a TypeError when
    it is not. *)
Definition defines (name : string) : bool :=
  existsb (String.eqb name) methods.

(** The instance with the two flags [init] sets. *)
Record instance : Type := {
  fields : state;
  isInitialized : bool;
  isQuantumFieldActive : bool
}.

(** The constructor: [this.isQuantumFieldActive = false;
    this.isInitialized = false;]. *)
Definition new_instance : instance :=
  {| fields := constructed; isInitialized := false; isQuantumFieldActive := false |}.

(** [init()] once the page is set up.  The body of the [try] awaits the
    probe and the first load of the metrics, starts the timers, sets the
    two flags and calls [this.dispatchAPOReadyEvent()]; the [catch] calls
    [this.handleInitializationError(error)]. *)
Definition init (probe : response (parsed (option string)))
           (metrics : response (parsed Metrics.snapshot)) (i : instance)
  : completion * instance :=
  let o1 := checkAPIConnection probe (fields i) in
  let caught (j : instance) : completion * instance :=
    if defines "handleInitializationError" then (Returned, j) else (Thrown, j) in
  match ended o1 with
  | Thrown => caught {| fields := final o1; isInitialized := isInitialized i;
                        isQuantumFieldActive := isQuantumFieldActive i |}
  | Returned =>
      let o2 := loadSustainabilityMetrics metrics (final o1) in
      match ended o2 with
      | Thrown => caught {| fields := final o2; isInitialized := isInitialized i;
                            isQuantumFieldActive := isQuantumFieldActive i |}
      | Returned =>
          let j := {| fields := final o2; isInitialized := true;
                      isQuantumFieldActive := true |} in
          if defines "dispatchAPOReadyEvent" then (Returned, j) else caught j
      end
  end.

End Lifecycle.

(** ** Sessions: what a sequence of calls does *)

Module Session.

Import Analysis.
Import Client.

(** An instance together with the calls of [analyzeConsciousness] that
    await the answer to their fetch: for each, the text and the intention
    it read before it issued the fetch. *)
Record session : Type := {
  instance : state;
  awaiting : list (jsval * string)
}.

(** A session on which no call awaits. *)
Definition quiet (st : state) : session :=
  {| instance := st; awaiting := [] |}.

(** What happens on an instance, one synchronous stretch at a time.  The
    methods other than [analyzeConsciousness] read nothing of the instance
    before their awaits and write to it in one stretch after them, so each
    acts as a [Whole] call at the time its answer arrives; so does a call
    of [analyzeConsciousness] that nothing else falls into.  A call of
    [analyzeConsciousness] that other steps overlap is a [Begin] (up to its
    await) and, later, the [Answer] to one of the awaiting calls. *)
Inductive step : Type :=
| Whole (c : call)
| Begin (pg : page)
| Answer (k : nat) (remote : response (parsed result)).

(** The list without its element of index [k]. *)
Fixpoint without {A : Type} (k : nat) (l : list A) : list A :=
  match l, k with
  | [], _ => []
  | _ :: t, O => t
  | x :: t, S k' => x :: without k' t
  end.

Definition act (s : step) (ss : session) : session * list event :=
  match s with
  | Whole c =>
      let o := perform c (instance ss) in
      ({| instance := final o; awaiting := awaiting ss |}, effects o)
  | Begin pg =>
      match analyze_begin pg (instance ss) with
      | Finished o => ({| instance := final o; awaiting := awaiting ss |}, effects o)
      | Fetching text intention =>
          ({| instance := instance ss;
              awaiting := awaiting ss ++ [(text, intention)] |},
           [Fetch HealingAnalysis])
      end
  | Answer k remote =>
      match nth_error (awaiting ss) k with
      | Some (text, intention) =>
          let o := analyze_resume text intention remote (instance ss) in
          ({| instance := final o; awaiting := without k (awaiting ss) |}, effects o)
      | None => (ss, [])
      end
  end.

(** The session after a sequence of steps. *)
Definition run_steps (l : list step) (ss : session) : session :=
  fold_left (fun acc s => fst (act s acc)) l ss.

(** The effects of a sequence of steps, in order. *)
Fixpoint trace (l : list step) (ss : session) : list event :=
  match l with
  | [] => []
  | s :: l' => snd (act s ss) ++ trace l' (fst (act s ss))
  end.

(** A call of [analyzeConsciousness] gets past its guard and the button. *)
Definition accepted (pg : page) : bool :=
  truthy (value_of (textInput pg)) && analyzeBtn pg.

(** The step starts a call of [analyzeConsciousness] that is accepted. *)
Definition starts (s : step) : bool :=
  match s with
  | Whole (AnalyzeConsciousness pg _) => accepted pg
  | Begin pg => accepted pg
  | _ => false
  end.

(** The number of accepted calls of [analyzeConsciousness] a sequence of
    steps starts. *)
Definition analyses (l : list step) : nat := List.length (filter starts l).

(** No answer to an analysis among the steps is a body that cannot be
    shown. *)
Definition shown (s : step) : bool :=
  match s with
  | Whole (AnalyzeConsciousness _ remote) | Answer _ remote =>
      match succeeded remote with Some IllShaped => false | _ => true end
  | _ => true
  end.

(** The results the service gives in answer to awaiting calls. *)
Definition served (l : list step) : list result :=
  flat_map (fun s => match s with
                     | Answer _ remote =>
                         match succeeded remote with
                         | Some (Shaped r) => [r]
                         | _ => []
                         end
                     | _ => []
                     end) l.

(** A result computed by [offlineAnalysis]. *)
Definition local (r : result) : Prop :=
  exists text intention, r = offlineAnalysis text intention.

(** The response the step meets does not send the instance offline: a
    probe is answered with a body whose [service] can be read, a fetch of
    the analysis is answered with a parsed body.  The other steps do not
    bear on the offline flag. *)
Definition answers (s : step) : bool :=
  match s with
  | Whole (CheckAPIConnection remote) =>
      match succeeded remote with Some (Shaped _) => true | _ => false end
  | Whole (AnalyzeConsciousness _ remote) | Answer _ remote =>
      match succeeded remote with Some _ => true | None => false end
  | _ => true
  end.

(** The body the last refresh that parsed one has stored, [stored] when
    there is none. *)
Definition last_body (l : list step) (stored : option (parsed Metrics.snapshot))
  : option (parsed Metrics.snapshot) :=
  fold_left (fun acc s => match s with
                          | Whole (LoadSustainabilityMetrics remote) =>
                              match succeeded remote with
                              | Some body => Some body
                              | None => acc
                              end
                          | _ => acc
                          end) l stored.

End Session.

(** ** The Node.js bridge: [APOQuantumLogosRunner] *)

Module Runner.

(** Strict equality of two strings. *)
Fixpoint jseqb (a b : jsstring) : bool :=
  match a, b with
  | [], [] => true
  | x :: a', y :: b' => (x =? y) && jseqb a' b'
  | _, _ => false
  end.

(** [this.pythonScript = 'apo_quantum_logos.py'] *)
Definition pythonScript : jsstring := text_of "apo_quantum_logos.py".

(** [buildArgs(mode, text)]; [text] is [null] ([None]) or a string. *)
Definition buildArgs (mode : jsstring) (text : option jsstring) : list jsstring :=
  let args := [pythonScript] in
  if jseqb mode (text_of "interactive") then
    args ++ [text_of "--interactive"]
  else if negb (jseqb mode (text_of "demo")) then
    let args := args ++ [text_of "--mode"; mode] in
    match text with
    | Some ((_ :: _) as t) => args ++ [text_of "--text"; t]
    | _ => args
    end
  else args.

(** White space and line terminators, the code units [trim] removes. *)
Definition is_whitespace (c : Z) : bool :=
  existsb (Z.eqb c)
          [9; 10; 11; 12; 13; 32; 160; 5760; 8232; 8233; 8239; 8287; 12288; 65279]
  || ((8192 <=? c) && (c <=? 8202)).

Fixpoint trimStart (s : jsstring) : jsstring :=
  match s with
  | [] => []
  | c :: rest => if is_whitespace c then trimStart rest else s
  end.

Definition trimEnd (s : jsstring) : jsstring := rev (trimStart (rev s)).

(** [s.trim()] *)
Definition trim (s : jsstring) : jsstring := trimEnd (trimStart s).

(** [s.split(sep)] for a one-unit separator: the first piece and the
    pieces after it (the array is never empty). *)
Fixpoint split (sep : Z) (s : jsstring) : jsstring * list jsstring :=
  match s with
  | [] => ([], [])
  | c :: rest =>
      let (piece, pieces) := split sep rest in
      if c =? sep then ([], piece :: pieces) else (c :: piece, pieces)
  end.

(** [pieces.join(sep)] for a one-unit separator. *)
Fixpoint join (sep : Z) (pieces : list jsstring) : jsstring :=
  match pieces with
  | [] => []
  | [piece] => piece
  | piece :: more => piece ++ sep :: join sep more
  end.

(** [const [command, ...args] = input.trim().split(' ');
     const text = args.join(' ');] *)
Definition parse (input : jsstring) : jsstring * jsstring :=
  let (command, args) := split 32 (trim input) in
  (command, join 32 args).

(** [command.toLowerCase()], exact for the comparisons with the command
    words below: a string lower-cases to one of them only if it is that
    word with some letters in upper case.  Outside ASCII only U+212A
    lower-cases to an ASCII letter, "k", which no command word has, and
    U+0130 to "i" followed by U+0307, which no command word has either. *)
Definition toLowerCase (s : jsstring) : jsstring :=
  map SignatureEngine.toLowerCase s.

(** What the read-eval loop does with a line. *)
Inductive action : Type :=
| Analyze (text : jsstring) (mode : string)   (** [await this.analyze(text, mode)] *)
| Say (message : string)                       (** [console.log(message)] *)
| LaunchPython                                 (** [this.runMode('interactive'); rl.close()] *)
| RunDemo                                      (** [this.runMode('demo')] *)
| Quit                                         (** [rl.close()] *)
| UnknownCommand (command : jsstring)
| Ignore.

(** The [switch (command.toLowerCase())] of [startInteractiveCLI]. *)
Definition dispatch (input : jsstring) : action :=
  let (command, text) := parse input in
  let word := toLowerCase command in
  let nonempty := match text with [] => false | _ :: _ => true end in
  if jseqb word (text_of "analyze") then
    if nonempty then Analyze text "full"
    else Say "Please provide text to analyze"
  else if jseqb word (text_of "math") then
    if nonempty then Analyze text "math_analysis"
    else Say "Please provide text for mathematical analysis"
  else if jseqb word (text_of "astro") then
    if nonempty then Analyze text "astronomy"
    else Say "Please provide text for astronomical analysis"
  else if jseqb word (text_of "logo") then
    if nonempty then Analyze text "logograms"
    else Say "Please provide text for logogram analysis"
  else if jseqb word (text_of "python") then LaunchPython
  else if jseqb word (text_of "demo") then RunDemo
  else if jseqb word (text_of "help") then
    Say "Available commands: analyze, math, astro, logo, python, demo, help, quit"
  else if jseqb word (text_of "quit") || jseqb word (text_of "exit") then Quit
  else match trim input with
       | [] => Ignore
       | _ :: _ => UnknownCommand command
       end.

End Runner.

(** ** Pages and snapshots used as examples *)

Import Analysis.
Import Client.

(** A page with a text, the intention "wisdom" and the analyze button. *)
Definition sample_page : page :=
  {| textInput := Some (text_of "Love");
     analysis_intention := Some "wisdom";
     emailInput := None;
     analyzeBtn := true |}.


(** A page with a text and no analyze button. *)
Definition bare_page : page :=
  {| textInput := Some (text_of "Love");
     analysis_intention := None;
     emailInput := None;
     analyzeBtn := false |}.

(** The same page with nothing typed. *)
Definition empty_page : page :=
  {| textInput := Some [];
     analysis_intention := Some "healing";
     emailInput := None;
     analyzeBtn := true |}.

(** A snapshot the service could have sent earlier. *)
Definition earlier_snapshot : Metrics.snapshot :=
  {| Metrics.total_analyses_performed := of_Z 7;
     Metrics.carbon_offset_generated := of_Z 3;
     Metrics.trees_planted_equivalent := of_Z 1;
     Metrics.renewable_energy_used := of_Z 12;
     Metrics.consciousness_elevation_events := of_Z 7;
     Metrics.planetary_healing_score := decimal 5 10 |}.

(** A result as the service answers it. *)
Definition served_result : result :=
  {| healing := healing (offlineAnalysis JNull "healing");
     sustainability := sustainability (offlineAnalysis JNull "healing");
     analysis_mode := "online";
     apo_signature := "ALPHA-PI-OMEGA-2024" |}.

(** A call that is overlapped: it issues its fetch, the probe fails while
    it awaits, then the service answers it. *)
Definition overlapping : list Session.step :=
  [Session.Begin sample_page;
   Session.Whole (CheckAPIConnection Rejected);
   Session.Answer 0 (Answered true (Some (Shaped served_result)))].

(** The session once that call awaits and the probe has failed. *)
Definition in_flight : Session.session :=
  {| Session.instance := set_offline constructed;
     Session.awaiting := [(JString (text_of "Love"), "wisdom")] |}.

(** The answer to the awaiting call, then a call made after it. *)
Definition late_answer : list Session.step :=
  [Session.Answer 0 (Answered true (Some (Shaped served_result)));
   Session.Whole (AnalyzeConsciousness sample_page
                    (Answered true (Some (Shaped served_result))))].

(** ** Intervals of integers, for properties settled by evaluation *)

(** The integers from [lo], [n] of them. *)
Fixpoint upto (lo : Z) (n : nat) : list Z :=
  match n with
  | O => []
  | S k => lo :: upto (lo + 1) k
  end.

(** The integers of [lo, hi). *)
Definition interval (lo hi : Z) : list Z := upto lo (Z.to_nat (hi - lo)).

(** The regenerative score [offlineAnalysis] computes when [signature % 100]
    is [k]. *)
Definition score_of_remainder (k : Z) : num :=
  mul (div (of_Z k) (of_Z 100)) (decimal 8 10).

(** Equality of two numbers as values of the model (it tells the two zeros
    apart, unlike [===]). *)
Definition num_eqb (x y : num) : bool :=
  match x, y with
  | S754_zero a, S754_zero b => Bool.eqb a b
  | S754_infinity a, S754_infinity b => Bool.eqb a b
  | S754_nan, S754_nan => true
  | S754_finite s m e, S754_finite s' m' e' =>
      Bool.eqb s s' && Pos.eqb m m' && Z.eqb e e'
  | _, _ => false
  end.

(** [x] is at least 2^(k-1) in magnitude, or infinite or NaN; a finite [x]
    also has an exponent of at least [k - 53]. *)
Definition at_least (k : Z) (x : num) : Prop :=
  match x with
  | S754_zero _ => False
  | S754_finite _ m e => k <= Zpos (digits2_pos m) + e /\ k - 53 <= e
  | _ => True
  end.

(** The modulator after [n] vowels. *)
Definition modulator_after (n : nat) : num :=
  Nat.iter n (fun m => mul m (decimal 1618 1000)) (of_Z 1).

(** A text of [n] times the letter "a". *)
Definition vowel_run (n : nat) : jsstring := repeat 97 n.

(** * Properties *)

(** ** Numbers *)

Lemma ToUint32_range (x : num) : 0 <= ToUint32 x < two32.
Proof. unfold ToUint32. apply Z.mod_pos_bound. reflexivity. Qed.

Lemma ToInt32_range (x : num) : - two31 <= ToInt32 x < two31.
Proof.
  unfold ToInt32. pose proof (ToUint32_range x) as H.
  destruct (Z.leb_spec two31 (ToUint32 x)); unfold two31, two32 in *; lia.
Qed.

Lemma in_upto (n : nat) : forall lo z, lo <= z < lo + Z.of_nat n -> In z (upto lo n).
Proof.
  induction n as [|n IH]; intros lo z Hz; simpl.
  - lia.
  - destruct (Z.eq_dec lo z) as [->|Hne]; [now left|right].
    apply IH. lia.
Qed.

(** A property decided by [p] holds on a whole interval once [p] has been
    evaluated on each of its members. *)
Lemma checked_on_interval (p : Z -> bool) (lo hi : Z) :
  forallb p (interval lo hi) = true ->
  forall z, lo <= z < hi -> p z = true.
Proof.
  intros Hall z Hz. rewrite forallb_forall in Hall.
  apply Hall, in_upto. rewrite Z2Nat.id; lia.
Qed.

(** Code units are their own signed 32-bit value as numbers. *)
Lemma ToInt32_code_unit (c : Z) : 0 <= c < 65536 -> ToInt32 (of_Z c) = c.
Proof.
  intros Hc. apply Z.eqb_eq.
  apply (checked_on_interval (fun z => ToInt32 (of_Z z) =? z) 0 65536).
  - vm_compute. reflexivity.
  - exact Hc.
Qed.

(** ** The signature *)

Lemma signature_of_string_range (s : jsstring) :
  0 <= signature_of_string s < two32.
Proof.
  unfold signature_of_string.
  match goal with |- context [ToUint32 ?x] => pose proof (ToUint32_range x) as H end.
  rewrite Z.abs_eq; lia.
Qed.

Lemma signature_range (v : jsval) : 0 <= calculateQuantumSignature v < two32.
Proof.
  unfold calculateQuantumSignature.
  destruct (negb (truthy v) || negb (is_string v)).
  - unfold two32; lia.
  - destruct v; try (unfold two32; lia). apply signature_of_string_range.
Qed.

(** Past the guard there are only non-empty strings. *)
Lemma guard_passes_nonempty_strings (c : Z) (s : jsstring) :
  calculateQuantumSignature (JString (c :: s)) = signature_of_string (c :: s).
Proof. reflexivity. Qed.

(** The salt: the length of the corporate signature. *)
Lemma apoSignature_value : apoSignature = 19.
Proof. reflexivity. Qed.

(** C9.  The guard of [calculateQuantumSignature] catches [null],
    [undefined], every value that is not a string, and the empty string:
    for each of them the call returns 0.  The embedding is a total function
    into the integers, and nothing before the guard reads a property of the
    argument, so no error is raised on these inputs. *)
Theorem guard_returns_zero (v : jsval) :
  v = JNull \/ v = JUndefined \/ is_string v = false \/ v = JString [] ->
  calculateQuantumSignature v = 0.
Proof.
  intros [-> | [-> | [Hns | ->]]]; try reflexivity.
  unfold calculateQuantumSignature. rewrite Hns.
  now rewrite orb_true_r.
Qed.

Lemma guard_returns_zero_witness :
  calculateQuantumSignature JNull = 0 /\
  calculateQuantumSignature JUndefined = 0 /\
  calculateQuantumSignature (JNumber (of_Z 42)) = 0 /\
  calculateQuantumSignature (JString []) = 0.
Proof.
  split; [|split; [|split]].
  - apply (guard_returns_zero JNull). left. reflexivity.
  - apply (guard_returns_zero JUndefined). right. left. reflexivity.
  - apply (guard_returns_zero (JNumber (of_Z 42))). right. right. left. reflexivity.
  - apply (guard_returns_zero (JString [])). right. right. right. reflexivity.
Defined.

(** C1, as the specification states it, fails: the signature of the empty
    string is not 2166136261 + 19 = 2166136280. *)
Lemma empty_signature_not_base :
  calculateQuantumSignature (JString (text_of "")) <> 2166136261 + apoSignature.
Proof. vm_compute. discriminate. Qed.

(** C1, amended.  For the empty string the guard returns before the loop,
    and the signature is 0.  The salt is 19, the length of
    'ALPHA-PI-OMEGA-2024'; the statements after the guard, run on an empty
    text, make no iteration, leave the modulator at 1 and give
    2166136261 + 19 = 2166136280; the guard keeps the call on the empty
    string from reaching them. *)
Theorem empty_signature :
  calculateQuantumSignature (JString []) = 0 /\
  apoSignature = Z.of_nat (String.length "ALPHA-PI-OMEGA-2024") /\
  apoSignature = 19 /\
  run_loop [] = loop_init /\
  consciousnessModulator (run_loop []) = of_Z 1 /\
  signature_of_string [] = 2166136261 + apoSignature /\
  signature_of_string [] = 2166136280.
Proof. repeat split. Qed.

(** ** Derived metrics *)

Lemma rem_nonneg (s m : Z) : 0 <= s -> 0 < m -> Z.rem s m = s mod m.
Proof. intros Hs Hm. apply Z.rem_mod_nonneg; lia. Qed.

(** On a signature the two remainders are the mathematical ones. *)
Lemma offline_derived_values_aux (text : jsval) :
  Z.rem (calculateQuantumSignature text) 100 = calculateQuantumSignature text mod 100 /\
  Z.rem (calculateQuantumSignature text) 200 = calculateQuantumSignature text mod 200.
Proof.
  pose proof (signature_range text) as H. unfold two32 in H.
  split; apply rem_nonneg; lia.
Qed.

(** C5.  With [s] the signature of the text, the offline result carries the
    frequency 400 + (s mod 200); its resonance and regenerative score are
    computed from the consciousness value (s mod 100) / 100; and the grade
    is "A+" above 500, else "A" above 450, else "B+". *)
Theorem offline_derived_values (text : jsval) (intention : string) :
  let s := calculateQuantumSignature text in
  let r := healing (offlineAnalysis text intention) in
  let f := 400 + s mod 200 in
  let c := div (of_Z (s mod 100)) (of_Z 100) in
  frequency_of s = f /\
  consciousness_of s = c /\
  consciousness_frequency r = of_Z f /\
  healing_resonance r = mul c (of_Z 1000) /\
  regenerative_score r = mul c (decimal 8 10) /\
  healing_grade r = (if 500 <? f then "A+" else if 450 <? f then "A" else "B+").
Proof.
  intros s r f c. subst r f c.
  pose proof (signature_range text) as Hs. fold s in Hs.
  assert (H200 : Z.rem s 200 = s mod 200) by (apply rem_nonneg; lia).
  assert (H100 : Z.rem s 100 = s mod 100) by (apply rem_nonneg; lia).
  unfold offlineAnalysis, frequency_of, consciousness_of, grade_of; simpl.
  fold s. rewrite H200, H100. repeat split.
Qed.

Lemma score_bounds (k : Z) :
  0 <= k < 100 ->
  leb (of_Z 0) (score_of_remainder k) = true /\
  leb (score_of_remainder k) (decimal 792 1000) = true /\
  ltb (score_of_remainder k) (decimal 8 10) = true.
Proof.
  intros Hk.
  pose proof (checked_on_interval
    (fun z => leb (of_Z 0) (score_of_remainder z)
              && leb (score_of_remainder z) (decimal 792 1000)
              && ltb (score_of_remainder z) (decimal 8 10)) 0 100) as H.
  specialize (H ltac:(vm_compute; reflexivity) k Hk). simpl in H.
  apply andb_true_iff in H as [H H3]. apply andb_true_iff in H as [H1 H2].
  auto.
Qed.

Lemma frequency_as_number (f : Z) :
  400 <= f < 600 ->
  leb (of_Z 400) (of_Z f) = true /\ leb (of_Z f) (of_Z 599) = true.
Proof.
  intros Hf.
  pose proof (checked_on_interval
    (fun z => leb (of_Z 400) (of_Z z) && leb (of_Z z) (of_Z 599)) 400 600) as H.
  specialize (H ltac:(vm_compute; reflexivity) f Hf). simpl in H.
  apply andb_true_iff in H. exact H.
Qed.

(** C4, as the specification states it, fails: the text "tm" has the
    signature 2068470799, whose remainder by 100 is 99, and its regenerative
    score, 0.99 * 0.8, is above 0.79. *)
Lemma regenerative_score_above_079 :
  let r := healing (offlineAnalysis (JString (text_of "tm")) "healing") in
  calculateQuantumSignature (JString (text_of "tm")) = 2068470799 /\
  leb (regenerative_score r) (decimal 79 100) = false /\
  ltb (decimal 79 100) (regenerative_score r) = true.
Proof. vm_compute. repeat split. Qed.

(** C4, amended.  For every text the offline frequency is an integer of
    [400, 599], and the regenerative score lies in [0, 0.792], so inside the
    range [0, 0.8] of the data model and strictly below 0.8. *)
Theorem offline_ranges (text : jsval) (intention : string) :
  let r := healing (offlineAnalysis text intention) in
  (exists f : Z, consciousness_frequency r = of_Z f /\ 400 <= f <= 599) /\
  leb (of_Z 400) (consciousness_frequency r) = true /\
  leb (consciousness_frequency r) (of_Z 599) = true /\
  leb (of_Z 0) (regenerative_score r) = true /\
  leb (regenerative_score r) (decimal 792 1000) = true /\
  ltb (regenerative_score r) (decimal 8 10) = true.
Proof.
  intros r.
  destruct (offline_derived_values_aux text) as (H100' & H200').
  assert (Hf : consciousness_frequency r
               = of_Z (400 + calculateQuantumSignature text mod 200)).
  { unfold r, offlineAnalysis, frequency_of. cbn [healing consciousness_frequency].
    now rewrite H200'. }
  assert (Hr : regenerative_score r
               = mul (div (of_Z (calculateQuantumSignature text mod 100)) (of_Z 100))
                     (decimal 8 10)).
  { unfold r, offlineAnalysis, consciousness_of. cbn [healing regenerative_score].
    now rewrite H100'. }
  clear H100' H200'.
  pose proof (signature_range text) as Hs.
  set (s := calculateQuantumSignature text) in *.
  assert (H200 : 0 <= s mod 200 < 200) by (apply Z.mod_pos_bound; lia).
  assert (H100 : 0 <= s mod 100 < 100) by (apply Z.mod_pos_bound; lia).
  destruct (frequency_as_number (400 + s mod 200) ltac:(lia)) as [F1 F2].
  destruct (score_bounds (s mod 100) H100) as (S1 & S2 & S3).
  rewrite Hf, Hr. unfold score_of_remainder in *.
  repeat split; try assumption.
  exists (400 + s mod 200). split; [reflexivity | lia].
Qed.

(** ** The engine against Section 4.1 *)

(** The vowel test of the code is membership among the ten letters, once
    the argument is reduced to a code unit. *)
Lemma isVowel_wraps (c : Z) : isVowel c = Reference.vowel (c mod 65536).
Proof.
  apply eq_true_iff_eq.
  unfold isVowel, fromCharCode, Reference.vowel, toLowerCase.
  change (text_of "aeiouAEIOU") with [97; 101; 105; 111; 117; 65; 69; 73; 79; 85].
  generalize (c mod 65536). intros u.
  simpl existsb. rewrite !orb_false_r.
  destruct (Z.leb_spec 65 u), (Z.leb_spec u 90); simpl;
    rewrite !orb_true_iff, !Z.eqb_eq; lia.
Qed.

Lemma isVowel_letters (c : Z) :
  0 <= c < 65536 -> isVowel c = Reference.vowel c.
Proof. intros Hc. rewrite isVowel_wraps, Z.mod_small by exact Hc. reflexivity. Qed.

(** For a code unit the switch always takes one of its nine cases. *)
Lemma enhancement_table (c : Z) :
  0 <= c -> enhancement c = Some (nth (Z.to_nat (c mod 9)) Described.table 0).
Proof.
  intros Hc. unfold enhancement. rewrite rem_nonneg by lia.
  assert (H : 0 <= c mod 9 < 9) by (apply Z.mod_pos_bound; lia).
  assert (E : c mod 9 = 0 \/ c mod 9 = 1 \/ c mod 9 = 2 \/ c mod 9 = 3 \/
              c mod 9 = 4 \/ c mod 9 = 5 \/ c mod 9 = 6 \/ c mod 9 = 7 \/
              c mod 9 = 8) by lia.
  destruct E as [E|[E|[E|[E|[E|[E|[E|[E|E]]]]]]]]; rewrite E; reflexivity.
Qed.

Lemma loop_body_described (st : loop_state) (c : Z) :
  0 <= c < 65536 ->
  loop_body st c =
  {| quantumHash := Described.hash_step (quantumHash st) c;
     consciousnessModulator :=
       if Reference.vowel c
       then mul (consciousnessModulator st) (decimal 1618 1000)
       else consciousnessModulator st |}.
Proof.
  intros Hc. unfold loop_body, Described.hash_step, bxor.
  rewrite ToInt32_code_unit by exact Hc.
  rewrite enhancement_table by lia.
  rewrite isVowel_letters by exact Hc. reflexivity.
Qed.

Lemma iter_shift {A} (f : A -> A) (n : nat) (x : A) :
  Nat.iter n f (f x) = f (Nat.iter n f x).
Proof. induction n as [|n IH]; simpl; [reflexivity | now rewrite IH]. Qed.

(** The loop keeps the two variables apart: the hash never reads the
    modulator, and the modulator only counts the vowels. *)
Lemma fold_loop_described (text : jsstring) :
  is_utf16 text = true ->
  forall st,
    fold_left loop_body text st =
    {| quantumHash := fold_left Described.hash_step text (quantumHash st);
       consciousnessModulator :=
         Nat.iter (Described.vowels text)
                  (fun m => mul m (decimal 1618 1000))
                  (consciousnessModulator st) |}.
Proof.
  induction text as [|c text IH]; intros Hwf st.
  - destruct st; reflexivity.
  - simpl in Hwf. apply andb_true_iff in Hwf as [Hc Hwf].
    apply andb_true_iff in Hc as [Hc0 Hc1].
    apply Z.leb_le in Hc0. apply Z.ltb_lt in Hc1.
    change (fold_left loop_body (c :: text) st)
      with (fold_left loop_body text (loop_body st c)).
    rewrite (IH Hwf), loop_body_described by lia.
    cbn [quantumHash consciousnessModulator fold_left].
    unfold Described.vowels. cbn [filter].
    destruct (Reference.vowel c); cbn [List.length]; [|reflexivity].
    f_equal.
    exact (iter_shift (fun m => mul m (decimal 1618 1000)) _ _).
Qed.

(** C2, as the specification states it, fails: on the text "b" the engine
    gives 3876336060 and the algorithm of Section 4.1 gives 3876336059 (the
    product with the multiplier is rounded to 53 bits, not wrapped); on the
    text "a", 838943728 against 1895635735 (the constant is 1.618 and the
    hash enters the product as a signed number); on the empty text, 0
    against 2166136280 (the guard). *)
Lemma signature_differs_from_reference :
  calculateQuantumSignature (JString (text_of "b")) = 3876336060 /\
  Reference.signature apoSignature (text_of "b") = 3876336059 /\
  calculateQuantumSignature (JString (text_of "a")) = 838943728 /\
  Reference.signature apoSignature (text_of "a") = 1895635735 /\
  calculateQuantumSignature (JString (text_of "")) = 0 /\
  Reference.signature apoSignature (text_of "") = 2166136280 /\
  ~ (forall text : jsstring,
       calculateQuantumSignature (JString text)
       = Reference.signature apoSignature text).
Proof.
  split; [vm_compute; reflexivity|].
  split; [vm_compute; reflexivity|].
  split; [vm_compute; reflexivity|].
  split; [vm_compute; reflexivity|].
  split; [vm_compute; reflexivity|].
  split; [vm_compute; reflexivity|].
  intros H. specialize (H (text_of "b")). vm_compute in H. discriminate H.
Qed.

(** C2, amended.  For every text, signature(text) is 0 when the text is
    empty, and otherwise comes from hash 2166136261 and modulator 1 as
    follows.  Each character XORs its code unit into the hash reduced to a
    signed 32-bit integer, multiplies by 16777619 and adds the table entry
    selected by code unit mod 9, the last two in binary64 (rounded to 53
    significant bits, with no reduction modulo 2^32); the modulator is
    multiplied by 1.618 for each of a e i o u A E I O U.  The result is
    hash * modulator + 19 in binary64, cut to its integer part and reduced
    to unsigned 32 bits. *)
Theorem signature_described (text : jsstring) :
  is_utf16 text = true ->
  calculateQuantumSignature (JString text) = Described.signature 19 text.
Proof.
  intros Hwf. destruct text as [|c text]; [reflexivity|].
  change (calculateQuantumSignature (JString (c :: text)))
    with (signature_of_string (c :: text)).
  unfold signature_of_string, run_loop, Described.signature.
  rewrite (fold_loop_described (c :: text) Hwf). cbn [quantumHash consciousnessModulator].
  rewrite Z.abs_eq by apply ToUint32_range.
  reflexivity.
Qed.

Lemma signature_described_witness :
  is_utf16 (text_of "Love") = true /\
  calculateQuantumSignature (JString (text_of "Love"))
  = Described.signature 19 (text_of "Love").
Proof.
  split; [reflexivity|].
  apply (signature_described (text_of "Love")). reflexivity.
Defined.

(** ** The orchestrator *)

(** A call with a non-empty text on a page with the button runs locally
    when the flag is set and issues the fetch otherwise. *)
Lemma analyze_begin_accepted (pg : page) (st : state) (text : jsstring) :
  textInput pg = Some text -> text <> [] -> analyzeBtn pg = true ->
  analyze_begin pg st
  = if offline st
    then Finished (conclude (offlineAnalysis (JString text) (intention_of pg)) st)
    else Fetching (JString text) (intention_of pg).
Proof.
  intros Htext Hne Hbtn. unfold analyze_begin. rewrite Htext, Hbtn.
  destruct text as [|c text]; [contradiction|].
  cbn [value_of truthy negb]. destruct (offline st); reflexivity.
Qed.

(** A call that gets past the guard and meets a failing endpoint, or finds
    the flag set, leaves the flag set. *)
Lemma failing_call_sets_offline (pg : page) (remote : response (parsed result))
      (st : state) (text : jsstring) :
  textInput pg = Some text -> text <> [] -> analyzeBtn pg = true ->
  succeeded remote = None ->
  offline (final (analyzeConsciousness pg remote st)) = true.
Proof.
  intros Htext Hne Hbtn Hfail.
  unfold analyzeConsciousness.
  rewrite (analyze_begin_accepted pg st text Htext Hne Hbtn).
  destruct (offline st) eqn:Hoff.
  - exact Hoff.
  - unfold analyze_resume. rewrite Hfail. reflexivity.
Qed.

(** C3, as the specification states it, fails.  An endpoint that answers
    200 with a parsed body the displays cannot show ([null], say) is not
    recovered locally: the call returns, but it has shown
    'Analysis failed: ...', displayed no result and appended nothing.
    And on a page without the analyze button a call with a non-empty text
    throws, whatever the endpoint does. *)
Lemma unusable_answer_is_not_recovered :
  let o := analyzeConsciousness sample_page (Answered true (Some IllShaped))
                                constructed in
  textInput sample_page = Some (text_of "Love") /\
  ended o = Returned /\
  analysisHistory (final o) = [] /\
  effects o = [Fetch HealingAnalysis; ShowError "Analysis failed: "] /\
  textInput bare_page = Some (text_of "Love") /\
  ended (analyzeConsciousness bare_page Rejected constructed) = Thrown.
Proof. cbv zeta. repeat split. Qed.

(** C3, amended.  When the analysis endpoint fails by rejecting the fetch,
    by a status that is not ok or by a body that does not parse, a call
    with a non-empty text, made on a page that has the analyze button,
    returns without throwing and reports no error; the result it displays
    and appends to the history is the one [offlineAnalysis] computes from
    the text, whose mode is 'offline'.  This holds whatever the offline flag
    was, the flag is set afterwards, and it holds as well when other calls
    have changed the instance while this one awaited its answer.  An answer
    of 200 whose parsed body cannot be shown, met by a call made with the
    flag unset, is not recovered: the call returns after showing
    'Analysis failed: ...', with the instance as it was. *)
Theorem fallback_is_local (pg : page) (remote : response (parsed result))
        (st : state) (text : jsstring) :
  textInput pg = Some text ->
  text <> [] ->
  analyzeBtn pg = true ->
  succeeded remote = None ->
  let r := offlineAnalysis (JString text) (intention_of pg) in
  let o := analyzeConsciousness pg remote st in
  (ended o = Returned /\
   analysisHistory (final o) = analysisHistory st ++ [r] /\
   analysis_mode r = "offline" /\
   In (DisplayAnalysisResults r) (effects o) /\
   (forall message, ~ In (ShowError message) (effects o)) /\
   offline (final o) = true) /\
  (forall later : state,
      let o' := analyze_resume (JString text) (intention_of pg) remote later in
      ended o' = Returned /\
      analysisHistory (final o') = analysisHistory later ++ [r] /\
      effects o' = [DisplayAnalysisResults r; UpdateConsciousnessDisplay r;
                    ShowInfo upgrade_notice] /\
      offline (final o') = true) /\
  (offline st = false ->
   let o'' := analyzeConsciousness pg (Answered true (Some IllShaped)) st in
   ended o'' = Returned /\
   final o'' = st /\
   effects o'' = [Fetch HealingAnalysis; ShowError analysis_failed]).
Proof.
  intros Htext Hne Hbtn Hfail r o. subst o.
  split; [|split].
  - unfold analyzeConsciousness.
    rewrite (analyze_begin_accepted pg st text Htext Hne Hbtn). fold r.
    destruct (offline st) eqn:Hoff.
    + unfold conclude. cbn [ended final effects push_history analysisHistory].
      assert (Hoff' : offline (push_history r st) = true) by exact Hoff.
      rewrite Hoff'.
      split; [reflexivity|]. split; [reflexivity|]. split; [reflexivity|].
      split; [simpl; auto|]. split; [|reflexivity].
      intros message [H|[H|[H|[]]]]; discriminate H.
    + unfold analyze_resume. rewrite Hfail. fold r. unfold conclude.
      cbn [ended final effects push_history set_offline analysisHistory offline
           isOfflineMode].
      split; [reflexivity|]. split; [reflexivity|]. split; [reflexivity|].
      split; [simpl; auto|]. split; [|reflexivity].
      intros message [H|[H|[H|[H|[]]]]]; discriminate H.
  - intros later. cbv zeta. unfold analyze_resume. rewrite Hfail. fold r.
    split; [reflexivity|]. split; [reflexivity|]. split; reflexivity.
  - intros Hoff. cbv zeta. unfold analyzeConsciousness.
    rewrite (analyze_begin_accepted pg st text Htext Hne Hbtn), Hoff.
    split; [reflexivity|]. split; reflexivity.
Qed.

Lemma fallback_is_local_witness :
  ended (analyzeConsciousness sample_page (Answered false None) constructed)
  = Returned /\
  analysisHistory
    (final (analyzeConsciousness sample_page (Answered false None) constructed))
  = [offlineAnalysis (JString (text_of "Love")) "wisdom"].
Proof.
  pose proof (fallback_is_local sample_page (Answered false None) constructed
                (text_of "Love") eq_refl ltac:(discriminate) eq_refl eq_refl)
    as ((H1 & H2 & _) & _).
  split; [exact H1 | exact H2].
Defined.

(** C6.  A call whose text is empty reports the validation failure to the
    user, the error message asking for text, and returns; it issues no
    fetch. *)
Theorem empty_text_is_rejected (pg : page) (remote : response (parsed result))
        (st : state) :
  textInput pg = Some [] ->
  let o := analyzeConsciousness pg remote st in
  ended o = Returned /\
  effects o = [ShowError enter_text] /\
  fetches (effects o) = [].
Proof.
  intros Htext o. subst o.
  unfold analyzeConsciousness, analyze_begin. rewrite Htext. repeat split.
Qed.

Lemma empty_text_is_rejected_witness :
  effects (analyzeConsciousness empty_page (Answered true None) constructed)
  = [ShowError "Please enter text for analysis"].
Proof.
  pose proof (empty_text_is_rejected empty_page (Answered true None) constructed
                eq_refl) as (_ & H & _).
  exact H.
Defined.

(** C10.  A call whose text is empty leaves the instance as it was: the
    history, the offline flag and the stored metrics are unchanged, and no
    fetch is issued, whatever the service would have answered. *)
Theorem empty_text_changes_nothing (pg : page) (remote : response (parsed result))
        (st : state) :
  textInput pg = Some [] ->
  let o := analyzeConsciousness pg remote st in
  final o = st /\
  analysisHistory (final o) = analysisHistory st /\
  isOfflineMode (final o) = isOfflineMode st /\
  sustainabilityMetrics (final o) = sustainabilityMetrics st /\
  fetches (effects o) = [] /\
  forall remote', analyzeConsciousness pg remote' st = o.
Proof.
  intros Htext o. subst o.
  unfold analyzeConsciousness, analyze_begin. rewrite Htext. repeat split.
Qed.

Lemma empty_text_changes_nothing_witness :
  final (analyzeConsciousness empty_page Rejected constructed) = constructed.
Proof.
  pose proof (empty_text_changes_nothing empty_page Rejected constructed eq_refl)
    as (H & _).
  exact H.
Defined.

(** ** The offline flag *)

Lemma conclude_assigns (r : result) (st : state) :
  assignments st (final (conclude r st)).
Proof.
  eapply assignments_cons; [apply AssignHistory | apply assignments_nil].
Qed.

(** The part of a call that follows the answer changes the instance by a
    sequence of the assignments. *)
Lemma analyze_resume_assigns (text : jsval) (intention : string)
      (remote : response (parsed result)) (st : state) :
  assignments st (final (analyze_resume text intention remote st)).
Proof.
  unfold analyze_resume. destruct (succeeded remote) as [[r|]|].
  - apply conclude_assigns.
  - apply assignments_nil.
  - eapply assignments_cons; [apply AssignOffline | apply conclude_assigns].
Qed.

(** So does the part that precedes the fetch. *)
Lemma analyze_begin_assigns (pg : page) (st : state) (o : outcome) :
  analyze_begin pg st = Finished o -> assignments st (final o).
Proof.
  unfold analyze_begin.
  destruct (negb (truthy (value_of (textInput pg))));
    [intros [= <-]; apply assignments_nil|].
  destruct (negb (analyzeBtn pg)); [intros [= <-]; apply assignments_nil|].
  destruct (negb (offline st)); [discriminate|].
  intros [= <-]. apply conclude_assigns.
Qed.

(** Each call changes the instance by a sequence of the assignments. *)
Lemma perform_assigns (c : call) (st : state) :
  assignments st (final (perform c st)).
Proof.
  destruct c as [remote | pg remote | pg remote | pg | remote]; cbn [perform].
  - unfold checkAPIConnection. destruct (succeeded remote) as [[service|]|];
      cbn [final].
    + apply assignments_nil.
    + eapply assignments_cons; [apply AssignOffline | apply assignments_nil].
    + eapply assignments_cons; [apply AssignOffline | apply assignments_nil].
  - unfold analyzeConsciousness.
    destruct (analyze_begin pg st) as [o|text intention] eqn:Hbegin.
    + apply (analyze_begin_assigns pg st o Hbegin).
    + cbn [final]. apply analyze_resume_assigns.
  - unfold handleFreeTrial.
    destruct (negb (truthy (value_of (emailInput pg)))
              || negb (truthy (value_of (textInput pg)))); [apply assignments_nil|].
    destruct (succeeded remote) as [[r|]|]; apply assignments_nil.
  - unfold updateRealTimeMetrics.
    destruct (textInput pg) as [[|c s]|]; apply assignments_nil.
  - unfold loadSustainabilityMetrics.
    destruct (succeeded remote) as [[m|]|]; cbn [final].
    + eapply assignments_cons; [apply AssignMetrics | apply assignments_nil].
    + eapply assignments_cons; [apply AssignMetrics | apply assignments_nil].
    + apply assignments_nil.
Qed.

Lemma assignment_keeps_offline (st st' : state) :
  assignment st st' -> offline st = true -> offline st' = true.
Proof. intros [s | r s | m s] Hoff; [reflexivity | exact Hoff | exact Hoff]. Qed.

Lemma assignments_keep_offline (st st' : state) :
  assignments st st' -> offline st = true -> offline st' = true.
Proof.
  induction 1 as [s | s1 s2 s3 H12 _ IH]; intros Hoff; [exact Hoff|].
  apply IH, (assignment_keeps_offline s1 s2 H12 Hoff).
Qed.

(** No assignment stores [false] in the flag. *)
Lemma assignment_never_false (st st' : state) :
  assignment st st' -> isOfflineMode st <> Some false ->
  isOfflineMode st' <> Some false.
Proof. intros [s | r s | m s] Hst; [discriminate | exact Hst | exact Hst]. Qed.

Lemma assignments_never_false (st st' : state) :
  assignments st st' -> isOfflineMode st <> Some false ->
  isOfflineMode st' <> Some false.
Proof.
  induction 1 as [s | s1 s2 s3 H12 _ IH]; intros Hst; [exact Hst|].
  apply IH, (assignment_never_false s1 s2 H12 Hst).
Qed.

(** No call clears the flag. *)
Lemma perform_keeps_offline (c : call) (st : state) :
  offline st = true -> offline (final (perform c st)) = true.
Proof. apply assignments_keep_offline, perform_assigns. Qed.

(** No call stores [false] in the flag either. *)
Lemma perform_never_false (c : call) (st : state) :
  isOfflineMode st <> Some false ->
  isOfflineMode (final (perform c st)) <> Some false.
Proof. apply assignments_never_false, perform_assigns. Qed.

Lemma run_app (cs1 cs2 : list call) (st : state) :
  run (cs1 ++ cs2) st = run cs2 (run cs1 st).
Proof. unfold run. apply fold_left_app. Qed.

Lemma run_keeps_offline (cs : list call) :
  forall st, offline st = true -> offline (run cs st) = true.
Proof.
  induction cs as [|c cs IH]; intros st Hoff; [exact Hoff|].
  change (run (c :: cs) st) with (run cs (final (perform c st))).
  apply IH, perform_keeps_offline, Hoff.
Qed.

Lemma run_never_false (cs : list call) :
  forall st, isOfflineMode st <> Some false -> isOfflineMode (run cs st) <> Some false.
Proof.
  induction cs as [|c cs IH]; intros st Hst; [exact Hst|].
  change (run (c :: cs) st) with (run cs (final (perform c st))).
  apply IH, perform_never_false, Hst.
Qed.

(** C7.  The probe run by [init] decides the flag at startup: the instance
    is offline after [init] exactly when the probe failed, a probe whose
    answer cannot be read failing like one that is not answered.  A call of
    [analyzeConsciousness] that reaches a failing endpoint sets the flag.
    And the flag is never cleared: along every sequence of calls, and along
    every sequence of the assignments the methods contain (so also when
    calls overlap), a flag that is set stays set; in a reachable state it is
    never [false]. *)
Theorem offline_is_sticky :
  (forall probe metrics,
      offline (run (init probe metrics) constructed)
      = match succeeded probe with Some (Shaped _) => false | _ => true end) /\
  (forall pg remote st text,
      textInput pg = Some text -> text <> [] -> analyzeBtn pg = true ->
      offline st = false -> succeeded remote = None ->
      offline (final (analyzeConsciousness pg remote st)) = true) /\
  (forall cs st, offline st = true -> offline (run cs st) = true) /\
  (forall cs1 cs2 st,
      offline (run cs1 st) = true -> offline (run (cs1 ++ cs2) st) = true) /\
  (forall st st', assignments st st' -> offline st = true -> offline st' = true) /\
  (forall st, reachable st -> isOfflineMode st <> Some false).
Proof.
  split; [|split; [|split; [|split; [|split]]]].
  - intros probe metrics. cbn. unfold checkAPIConnection, loadSustainabilityMetrics.
    destruct (succeeded probe) as [[service|]|];
      destruct (succeeded metrics) as [[m|]|]; reflexivity.
  - intros pg remote st text Htext Hne Hbtn _ Hfail.
    apply (failing_call_sets_offline pg remote st text Htext Hne Hbtn Hfail).
  - intros cs st. apply run_keeps_offline.
  - intros cs1 cs2 st H. rewrite run_app. apply run_keeps_offline, H.
  - apply assignments_keep_offline.
  - intros st (cs & ->).
    apply run_never_false. discriminate.
Qed.

Lemma offline_is_sticky_witness :
  offline (run [AnalyzeConsciousness sample_page
                  (Answered true (Some (Shaped (offlineAnalysis JNull "healing"))));
                LoadSustainabilityMetrics
                  (Answered true (Some (Shaped Metrics.getDefaultMetrics)));
                CheckAPIConnection (Answered true (Some (Shaped (Some "APO"))))]
               (set_offline constructed)) = true.
Proof.
  pose proof offline_is_sticky as (_ & _ & H & _).
  apply H. reflexivity.
Defined.

(** ** The metrics poller *)

(** C8, as the specification states it, fails: after a refresh that
    succeeded with some snapshot, a refresh that fails leaves that snapshot
    in [sustainabilityMetrics]; the default is not stored.  On a fresh
    instance a failed refresh leaves the field empty.  And a refresh that
    fails because the parsed body cannot be displayed has stored that body,
    which is not the default either. *)
Lemma failed_refresh_keeps_stored_snapshot :
  let st := run [LoadSustainabilityMetrics
                   (Answered true (Some (Shaped earlier_snapshot)))]
                constructed in
  succeeded (@Rejected (parsed Metrics.snapshot)) = None /\
  sustainabilityMetrics (final (loadSustainabilityMetrics Rejected st))
  = Some (Shaped earlier_snapshot) /\
  sustainabilityMetrics (final (loadSustainabilityMetrics Rejected st))
  <> Some (Shaped Metrics.getDefaultMetrics) /\
  sustainabilityMetrics (final (loadSustainabilityMetrics Rejected constructed))
  = None /\
  effects (loadSustainabilityMetrics (Answered true (Some IllShaped)) st)
  = [Fetch SustainabilityMetrics;
     DisplaySustainabilityMetrics Metrics.getDefaultMetrics] /\
  sustainabilityMetrics
    (final (loadSustainabilityMetrics (Answered true (Some IllShaped)) st))
  = Some IllShaped.
Proof.
  cbv zeta. split; [reflexivity|]. split; [reflexivity|].
  split; [vm_compute; discriminate|]. split; [reflexivity|].
  split; reflexivity.
Qed.

(** C8, amended.  For every failed refresh, [loadSustainabilityMetrics]
    displays the fixed default snapshot rather than the previous one, and
    never stores it.  When the fetch rejects, the status is not ok or the
    body does not parse, the instance is left as it was:
    [sustainabilityMetrics] keeps the value it had (the body of the last
    refresh that stored one, or its initial empty value).  When the body
    parsed but could not be displayed, [sustainabilityMetrics] holds that
    body, the assignment preceding the display.  The rest of the instance
    is untouched. *)
Theorem failed_refresh_displays_default
        (remote : response (parsed Metrics.snapshot)) (st : state) :
  (forall m, succeeded remote <> Some (Shaped m)) ->
  let o := loadSustainabilityMetrics remote st in
  ended o = Returned /\
  effects o = [Fetch SustainabilityMetrics;
               DisplaySustainabilityMetrics Metrics.getDefaultMetrics] /\
  (succeeded remote = None ->
   final o = st /\ sustainabilityMetrics (final o) = sustainabilityMetrics st) /\
  (succeeded remote = Some IllShaped ->
   sustainabilityMetrics (final o) = Some IllShaped) /\
  (sustainabilityMetrics (final o) = sustainabilityMetrics st \/
   sustainabilityMetrics (final o) = Some IllShaped) /\
  isOfflineMode (final o) = isOfflineMode st /\
  analysisHistory (final o) = analysisHistory st.
Proof.
  intros Hfail o. subst o. unfold loadSustainabilityMetrics.
  destruct (succeeded remote) as [[m|]|].
  - exfalso. apply (Hfail m). reflexivity.
  - split; [reflexivity|]. split; [reflexivity|]. split; [discriminate|].
    split; [reflexivity|]. split; [right; reflexivity|]. split; reflexivity.
  - split; [reflexivity|]. split; [reflexivity|].
    split; [intros _; split; reflexivity|].
    split; [discriminate|]. split; [left; reflexivity|]. split; reflexivity.
Qed.

Lemma failed_refresh_displays_default_witness :
  effects (loadSustainabilityMetrics
             (Answered false (Some (Shaped earlier_snapshot))) constructed)
  = [Fetch SustainabilityMetrics;
     DisplaySustainabilityMetrics Metrics.getDefaultMetrics].
Proof.
  pose proof (failed_refresh_displays_default
                (Answered false (Some (Shaped earlier_snapshot))) constructed
                ltac:(discriminate))
    as (_ & H & _).
  exact H.
Defined.

(** A refresh that succeeds replaces the stored snapshot by the new one. *)
Lemma successful_refresh_replaces (m : Metrics.snapshot) (st : state) :
  sustainabilityMetrics
    (final (loadSustainabilityMetrics (Answered true (Some (Shaped m))) st))
  = Some (Shaped m).
Proof. reflexivity. Qed.

(** * Further properties of the code *)

(** ** The signature is an unsigned 32-bit integer *)

Lemma num_eqb_eq (x y : num) : num_eqb x y = true -> x = y.
Proof.
  destruct x as [a|a| |s m e], y as [b|b| |s' m' e']; simpl; try discriminate.
  - intros H. apply Bool.eqb_prop in H. now subst.
  - intros H. apply Bool.eqb_prop in H. now subst.
  - reflexivity.
  - intros H. apply andb_true_iff in H as [H He]. apply andb_true_iff in H as [Hs Hm].
    apply Bool.eqb_prop in Hs. apply Pos.eqb_eq in Hm. apply Z.eqb_eq in He.
    now subst.
Qed.

(** X1.  Whatever it is handed, [calculateQuantumSignature] returns an
    integer of [0, 2^32): the final [>>> 0] makes the result an unsigned
    32-bit integer, on which [Math.abs] changes nothing and [%] is the
    mathematical remainder. *)
Theorem signature_is_uint32 (v : jsval) :
  0 <= calculateQuantumSignature v < 2 ^ 32 /\
  Z.abs (calculateQuantumSignature v) = calculateQuantumSignature v /\
  Z.rem (calculateQuantumSignature v) 100 = calculateQuantumSignature v mod 100 /\
  Z.rem (calculateQuantumSignature v) 200 = calculateQuantumSignature v mod 200.
Proof.
  pose proof (signature_range v) as H. unfold two32 in H.
  change (2 ^ 32) with 4294967296.
  split; [lia|]. split; [apply Z.abs_eq; lia|].
  split; apply rem_nonneg; lia.
Qed.

(** X2.  [isVowel] looks at its argument modulo 2^16, as
    [String.fromCharCode] does, and is true exactly when that code unit is
    one of the ten letters a e i o u A E I O U.  So a code unit counts as a
    vowel exactly when it is one of the ten letters (no accented vowel, no
    other code unit), and an integer outside the code units counts exactly
    when it is congruent to one of them: [isVowel(65601)] is true, 65601
    being 65536 + 65. *)
Theorem isVowel_exactly_ten (c : Z) :
  (isVowel c = true
   <-> In (c mod 65536) [97; 101; 105; 111; 117; 65; 69; 73; 79; 85]) /\
  (0 <= c < 65536 ->
   (isVowel c = true <-> In c [97; 101; 105; 111; 117; 65; 69; 73; 79; 85])) /\
  isVowel (c + 65536) = isVowel c /\
  isVowel 65601 = true.
Proof.
  assert (Hten : forall u, Reference.vowel u = true
                           <-> In u [97; 101; 105; 111; 117; 65; 69; 73; 79; 85]).
  { intros u. unfold Reference.vowel.
    change (text_of "aeiouAEIOU") with [97; 101; 105; 111; 117; 65; 69; 73; 79; 85].
    rewrite existsb_exists. split.
    - intros (x & Hin & Heq). apply Z.eqb_eq in Heq. now subst.
    - intros Hin. exists u. split; [exact Hin | apply Z.eqb_refl]. }
  split; [|split; [|split]].
  - rewrite isVowel_wraps. apply Hten.
  - intros Hc. rewrite isVowel_letters by exact Hc. apply Hten.
  - rewrite !isVowel_wraps.
    replace (c + 65536) with (c + 1 * 65536) by lia.
    rewrite Z.mod_add by lia. reflexivity.
  - reflexivity.
Qed.

Lemma isVowel_exactly_ten_witness :
  isVowel 69 = true <-> In 69 [97; 101; 105; 111; 117; 65; 69; 73; 79; 85].
Proof.
  pose proof (isVowel_exactly_ten 69) as (_ & H & _).
  apply H. lia.
Defined.

(** ** Long texts *)

(** The modulator of the loop only counts the vowels, for any list of code
    units and from any state. *)
Lemma modulator_counts_vowels (text : jsstring) :
  forall st,
    consciousnessModulator (fold_left loop_body text st)
    = Nat.iter (List.length (filter isVowel text))
               (fun m => mul m (decimal 1618 1000))
               (consciousnessModulator st).
Proof.
  induction text as [|c text IH]; intros st; [reflexivity|].
  change (fold_left loop_body (c :: text) st)
    with (fold_left loop_body text (loop_body st c)).
  rewrite IH. unfold loop_body at 1. cbn [consciousnessModulator filter].
  destruct (isVowel c); cbn [List.length]; [|reflexivity].
  exact (iter_shift (fun m => mul m (decimal 1618 1000)) _ _).
Qed.

(** *** Sizes of binary64 numbers

    [at_least k x] bounds a number from below in magnitude; the lemmas
    follow the rounding of [SpecFloat] through a product and a sum. *)

Lemma digits2_size (p : positive) : digits2_pos p = Pos.size p.
Proof. induction p as [p IH|p IH|]; cbn; now rewrite ?IH. Qed.

Lemma digits2_log2 (p : positive) : Zpos (digits2_pos p) = Z.log2 (Zpos p) + 1.
Proof.
  rewrite digits2_size. destruct p as [p|p|]; cbn; try reflexivity;
    rewrite Pos2Z.inj_succ; lia.
Qed.

Lemma Zdigits2_log2 (z : Z) : 0 < z -> Zdigits2 z = Z.log2 z + 1.
Proof. destruct z as [|p|p]; try lia. intros _. apply digits2_log2. Qed.

Lemma shr_1_m (mrs : shr_record) :
  0 <= shr_m mrs -> shr_m (shr_1 mrs) = Z.shiftr (shr_m mrs) 1.
Proof.
  destruct mrs as [m r s]. cbn [shr_m]. intros Hm.
  rewrite <- Z.div2_spec.
  destruct m as [|[p|p|]|p]; try lia; reflexivity.
Qed.

Lemma iter_shr_m (p : positive) :
  forall mrs, 0 <= shr_m mrs ->
    shr_m (iter_pos shr_1 p mrs) = Z.shiftr (shr_m mrs) (Zpos p).
Proof.
  induction p as [p IH|p IH|]; intros mrs Hm; cbn [iter_pos].
  - assert (H1 : 0 <= shr_m (shr_1 mrs))
      by (rewrite shr_1_m by exact Hm; apply Z.shiftr_nonneg, Hm).
    assert (H2 : 0 <= shr_m (iter_pos shr_1 p (shr_1 mrs)))
      by (rewrite IH by exact H1; apply Z.shiftr_nonneg, H1).
    rewrite IH, IH, shr_1_m by assumption.
    rewrite !Z.shiftr_shiftr by lia. f_equal. lia.
  - assert (H2 : 0 <= shr_m (iter_pos shr_1 p mrs))
      by (rewrite IH by exact Hm; apply Z.shiftr_nonneg, Hm).
    rewrite IH, IH by assumption.
    rewrite !Z.shiftr_shiftr by lia. f_equal. lia.
  - apply shr_1_m, Hm.
Qed.

(** shifting a positive number right by fewer bits than it has *)
Lemma log2_shiftr_pos (m n : Z) :
  0 < m -> 0 <= n <= Z.log2 m ->
  0 < Z.shiftr m n /\ Z.log2 (Z.shiftr m n) = Z.log2 m - n.
Proof.
  intros Hm Hn.
  assert (Hl : Z.log2 (Z.shiftr m n) = Z.log2 m - n).
  { rewrite Z.log2_shiftr by lia. lia. }
  split; [|exact Hl].
  rewrite Z.shiftr_div_pow2 by lia.
  apply Z.div_str_pos. split; [apply Z.pow_pos_nonneg; lia|].
  apply Z.log2_le_pow2; lia.
Qed.

Lemma fexp_normal (x : Z) : -1021 <= x -> fexp prec emax x = x - 53.
Proof. unfold fexp, emin, prec, emax. lia. Qed.

Lemma shr_record_of_loc_m (m : Z) (l : location) : shr_m (shr_record_of_loc m l) = m.
Proof. destruct l as [|[ | | ]]; reflexivity. Qed.

Lemma shr_fexp_spec (m e : Z) (l : location) :
  0 < m -> -1021 <= Zdigits2 m + e ->
  (Zdigits2 m <= 53 -> shr_fexp prec emax m e l = (shr_record_of_loc m l, e)) /\
  (53 < Zdigits2 m ->
   exists mrs, shr_fexp prec emax m e l = (mrs, e + (Zdigits2 m - 53))
               /\ shr_m mrs = Z.shiftr m (Zdigits2 m - 53)).
Proof.
  intros Hm Hk. unfold shr_fexp. rewrite fexp_normal by lia.
  replace (Zdigits2 m + e - 53 - e) with (Zdigits2 m - 53) by lia.
  split; intros Hd.
  - unfold shr. destruct (Zdigits2 m - 53) eqn:E; try reflexivity. lia.
  - unfold shr. destruct (Zdigits2 m - 53) as [|p|p] eqn:E; try lia.
    eexists. split; [reflexivity|].
    rewrite iter_shr_m; rewrite shr_record_of_loc_m; [reflexivity | lia].
Qed.

Lemma round_nearest_even_cases (m : Z) (l : location) :
  round_nearest_even m l = m \/ round_nearest_even m l = m + 1.
Proof.
  destruct l as [|[ | | ]]; cbn; auto. destruct (Z.even m); auto.
Qed.

Lemma round_aux_at_least (s : bool) (m : positive) (e : Z) :
  -1021 <= Zpos (digits2_pos m) + e ->
  at_least (Zpos (digits2_pos m) + e)
           (binary_round_aux prec emax s (Zpos m) e loc_Exact).
Proof.
  intros Hk.
  assert (Hm : 0 < Zpos m) by lia.
  change (Zpos (digits2_pos m)) with (Zdigits2 (Zpos m)) in *.
  set (d := Zdigits2 (Zpos m)) in *.
  assert (Hd : d = Z.log2 (Zpos m) + 1) by (apply Zdigits2_log2; lia).
  unfold binary_round_aux.
  destruct (shr_fexp_spec (Zpos m) e loc_Exact Hm Hk) as [Hsmall Hbig].
  fold d in Hsmall, Hbig.
  destruct (Z_le_gt_dec d 53) as [Hle|Hgt].
  - rewrite (Hsmall Hle).
    cbn [shr_record_of_loc loc_of_shr_record shr_m round_nearest_even].
    rewrite (Hsmall Hle). cbn [shr_record_of_loc shr_m].
    destruct (e <=? emax - prec); cbn [at_least]; [|exact I].
    change (Zpos (digits2_pos m)) with d. lia.
  - destruct (Hbig ltac:(lia)) as (mrs1 & -> & Hm1).
    set (e1 := e + (d - 53)).
    set (m1 := shr_m mrs1) in *.
    destruct (log2_shiftr_pos (Zpos m) (d - 53) Hm ltac:(lia)) as [Hpos Hlog].
    rewrite <- Hm1 in Hpos, Hlog.
    set (m1' := round_nearest_even m1 (loc_of_shr_record mrs1)).
    assert (Hm1' : 0 < m1' /\ (Z.log2 m1' = 52 \/ Z.log2 m1' = 53)).
    { destruct (round_nearest_even_cases m1 (loc_of_shr_record mrs1)) as [E|E];
        fold m1' in E; rewrite E.
      - split; [lia | left; lia].
      - split; [lia|]. change (m1 + 1) with (Z.succ m1).
        destruct (Z.log2_succ_or m1) as [H|H]; rewrite H; lia. }
    destruct Hm1' as [Hpos' Hlog'].
    assert (Hd' : Zdigits2 m1' = Z.log2 m1' + 1) by (apply Zdigits2_log2; lia).
    destruct (shr_fexp_spec m1' e1 loc_Exact Hpos' ltac:(unfold e1; lia))
      as [Hsmall' Hbig'].
    destruct Hlog' as [Hl|Hl].
    + rewrite (Hsmall' ltac:(lia)). cbn [shr_record_of_loc shr_m].
      destruct m1' as [|q|q] eqn:Eq; try lia.
      destruct (e1 <=? emax - prec); cbn [at_least]; [|exact I].
      change (Zpos (digits2_pos q)) with (Zdigits2 (Zpos q)).
      unfold e1. lia.
    + destruct (Hbig' ltac:(lia)) as (mrs2 & -> & Hm2).
      destruct (log2_shiftr_pos m1' (Zdigits2 m1' - 53) Hpos' ltac:(lia))
        as [Hpos2 Hlog2].
      rewrite <- Hm2 in Hpos2, Hlog2.
      destruct (shr_m mrs2) as [|q|q] eqn:Eq; try lia.
      destruct (e1 + (Zdigits2 m1' - 53) <=? emax - prec); cbn [at_least]; [|exact I].
      rewrite digits2_log2. unfold e1. lia.
Qed.

Lemma at_least_weaken (k k' : Z) (x : num) : k' <= k -> at_least k x -> at_least k' x.
Proof. destruct x as [s|s| |s m e]; cbn; try tauto. lia. Qed.

Lemma digits2_iter_xO (m d : positive) :
  Zpos (digits2_pos (Pos.iter xO m d)) = Zpos (digits2_pos m) + Zpos d.
Proof.
  induction d as [|d IH] using Pos.peano_ind.
  - cbn. rewrite Pos2Z.inj_succ. lia.
  - rewrite Pos.iter_succ. cbn [digits2_pos].
    rewrite !Pos2Z.inj_succ, IH. lia.
Qed.

Lemma pos_iter_xO (m d : positive) :
  Zpos (Pos.iter xO m d) = Zpos m * 2 ^ Zpos d.
Proof.
  induction d as [|d IH] using Pos.peano_ind.
  - cbn. lia.
  - rewrite Pos.iter_succ, Pos2Z.inj_xO, IH, Pos2Z.inj_succ, Z.pow_succ_r by lia.
    lia.
Qed.

(** aligning keeps the value: mantissa times 2^(e - e') when e' < e *)
Lemma shl_align_spec (m : positive) (e e' : Z) :
  e' <= e ->
  Zpos (fst (shl_align m e e')) = Zpos m * 2 ^ (e - e') /\
  snd (shl_align m e e') = e'.
Proof.
  intros Hle. unfold shl_align.
  destruct (e' - e) as [|p|p] eqn:E; try lia; cbn [fst snd].
  - replace (e - e') with 0 by lia. split; lia.
  - rewrite pos_iter_xO. replace (e - e') with (Zpos p) by lia. tauto.
Qed.

Lemma shl_align_mag (m : positive) (e e' : Z) :
  Zpos (digits2_pos (fst (shl_align m e e'))) + snd (shl_align m e e')
  = Zpos (digits2_pos m) + e.
Proof.
  unfold shl_align.
  destruct (e' - e) as [|p|p] eqn:E; cbn [fst snd]; try reflexivity.
  rewrite digits2_iter_xO. lia.
Qed.

Lemma round_at_least (s : bool) (m : positive) (e : Z) :
  -1021 <= Zpos (digits2_pos m) + e ->
  at_least (Zpos (digits2_pos m) + e) (binary_round prec emax s m e).
Proof.
  intros Hk. unfold binary_round.
  pose proof (shl_align_mag m e (fexp prec emax (Zpos (digits2_pos m) + e))) as Hmag.
  destruct (shl_align m e (fexp prec emax (Zpos (digits2_pos m) + e))) as [mz ez].
  cbn [fst snd] in Hmag. rewrite <- Hmag.
  apply round_aux_at_least. lia.
Qed.

Lemma normalize_at_least (z e : Z) :
  z <> 0 -> -1021 <= Zdigits2 z + e ->
  at_least (Zdigits2 z + e) (binary_normalize prec emax z e false).
Proof.
  intros Hz Hk. destruct z as [|p|p]; [contradiction| |];
    cbn [binary_normalize Zdigits2] in *; apply round_at_least, Hk.
Qed.

Lemma of_Z_at_least (z : Z) : z <> 0 -> at_least 1 (of_Z z).
Proof.
  intros Hz. unfold of_Z.
  assert (H : 1 <= Zdigits2 z) by (destruct z; cbn; lia).
  apply (at_least_weaken (Zdigits2 z + 0)); [lia|].
  apply normalize_at_least; [exact Hz | lia].
Qed.

Lemma mul_at_least (a b : Z) (x y : num) :
  -1020 <= a + b ->
  at_least a x -> at_least b y -> at_least (a + b - 1) (mul x y).
Proof.
  intros Hab Hx Hy.
  destruct x as [sx|sx| |sx mx ex], y as [sy|sy| |sy my ey];
    cbn [at_least] in Hx, Hy; try contradiction; try exact I.
  unfold mul, SFmul.
  assert (Hd : Zpos (digits2_pos mx) + Zpos (digits2_pos my) - 1
               <= Zpos (digits2_pos (mx * my))).
  { rewrite !digits2_log2, Pos2Z.inj_mul.
    pose proof (Z.log2_mul_below (Zpos mx) (Zpos my) ltac:(lia) ltac:(lia)). lia. }
  apply (at_least_weaken (Zpos (digits2_pos (mx * my)) + (ex + ey))); [lia|].
  apply round_aux_at_least. lia.
Qed.

(** a sum with a much smaller term keeps its size up to one bit *)
Lemma sum_log2 (A B : Z) (sa sb : bool) :
  0 < A -> 0 < B -> Z.log2 B + 2 <= Z.log2 A ->
  let n := cond_Zopp sa A + cond_Zopp sb B in
  n <> 0 /\ Z.log2 A <= Zdigits2 n.
Proof.
  intros HA HB Hgap n.
  assert (HA2 : 2 ^ Z.log2 A <= A) by (apply Z.log2_spec; lia).
  assert (HB2 : B < 2 ^ (Z.log2 A - 1)).
  { apply Z.lt_le_trans with (2 ^ Z.succ (Z.log2 B)); [apply Z.log2_spec; lia|].
    apply Z.pow_le_mono_r; lia. }
  assert (Hp : 2 ^ Z.log2 A = 2 * 2 ^ (Z.log2 A - 1)).
  { rewrite <- Z.pow_succ_r by (pose proof (Z.log2_nonneg B); lia).
    f_equal. lia. }
  assert (Hn : 2 ^ (Z.log2 A - 1) <= Z.abs n).
  { unfold n, cond_Zopp. destruct sa, sb; lia. }
  assert (Hpos : 0 < 2 ^ (Z.log2 A - 1))
    by (apply Z.pow_pos_nonneg; pose proof (Z.log2_nonneg B); lia).
  split; [lia|].
  assert (Hl : Z.log2 A - 1 <= Z.log2 (Z.abs n)) by (apply Z.log2_le_pow2; lia).
  assert (Hdig : Zdigits2 n = Z.log2 (Z.abs n) + 1).
  { destruct n as [|p|p]; cbn [Z.abs Zdigits2] in *; try lia; apply digits2_log2. }
  lia.
Qed.

Lemma add_at_least (a b : Z) (x : num) (sy : bool) (my : positive) (ey : Z) :
  Zpos (digits2_pos my) + ey <= b ->
  b + 2 <= a -> -1020 <= a ->
  at_least a x ->
  at_least (a - 1) (add x (S754_finite sy my ey)).
Proof.
  intros Hy Hgap Ha Hx.
  destruct x as [sx|sx| |sx mx ex]; cbn [at_least] in Hx; try contradiction;
    try exact I.
  unfold add, SFadd.
  set (ez := Z.min ex ey).
  destruct (shl_align_spec mx ex ez ltac:(unfold ez; lia)) as [HA _].
  destruct (shl_align_spec my ey ez ltac:(unfold ez; lia)) as [HB _].
  set (A := Zpos (fst (shl_align mx ex ez))) in *.
  set (B := Zpos (fst (shl_align my ey ez))) in *.
  assert (HlA : Z.log2 A = Z.log2 (Zpos mx) + (ex - ez)).
  { rewrite HA, Z.log2_mul_pow2; unfold ez; lia. }
  assert (HlB : Z.log2 B = Z.log2 (Zpos my) + (ey - ez)).
  { rewrite HB, Z.log2_mul_pow2; unfold ez; lia. }
  rewrite digits2_log2 in Hx, Hy.
  destruct (sum_log2 A B sx sy ltac:(unfold A; lia) ltac:(unfold B; lia)
              ltac:(lia)) as [Hn Hdig].
  apply (at_least_weaken
           (Zdigits2 (cond_Zopp sx A + cond_Zopp sy B) + ez)); [lia|].
  apply normalize_at_least; [exact Hn | lia].
Qed.

Lemma ToUint32_at_least (x : num) : at_least 85 x -> ToUint32 x = 0.
Proof.
  destruct x as [s|s| |s m e]; cbn [at_least]; try contradiction;
    try (intros _; reflexivity).
  intros [_ He]. unfold ToUint32, truncate.
  destruct e as [|p|p]; try lia.
  rewrite Z.shiftl_mul_pow2 by lia.
  replace (2 ^ Zpos p) with (2 ^ (Zpos p - 32) * two32)
    by (unfold two32; change 4294967296 with (2 ^ 32);
        rewrite <- Z.pow_add_r by lia; f_equal; lia).
  destruct s.
  - rewrite <- Z.mul_opp_l, Z.mul_assoc. apply Z.mod_mul. unfold two32. lia.
  - rewrite Z.mul_assoc. apply Z.mod_mul. unfold two32. lia.
Qed.

(** The hash after a character is never small. *)
Lemma bonus_shape (c : Z) :
  0 <= c ->
  exists b, enhancement c = Some b /\
            exists m e, of_Z b = S754_finite false m e /\
                        Zpos (digits2_pos m) + e <= 10 /\
                        at_least 8 (of_Z b).
Proof.
  intros Hc. unfold enhancement. rewrite Z.rem_mod_nonneg by lia.
  assert (H : 0 <= c mod 9 < 9) by (apply Z.mod_pos_bound; lia).
  assert (E : c mod 9 = 0 \/ c mod 9 = 1 \/ c mod 9 = 2 \/ c mod 9 = 3 \/
              c mod 9 = 4 \/ c mod 9 = 5 \/ c mod 9 = 6 \/ c mod 9 = 7 \/
              c mod 9 = 8) by lia.
  destruct E as [E|[E|[E|[E|[E|[E|[E|[E|E]]]]]]]]; rewrite E;
    eexists; (split; [reflexivity|]); eexists; eexists;
    (split; [vm_compute; reflexivity|]); vm_compute; (split; [|split]);
    discriminate.
Qed.

Lemma hash_at_least (st : loop_state) (c : Z) :
  0 <= c -> at_least 8 (quantumHash (loop_body st c)).
Proof.
  intros Hc. unfold loop_body. cbn [quantumHash].
  destruct (bonus_shape c Hc) as (b & -> & m & e & Hb & Hsmall & Hbig).
  unfold bxor.
  set (y := Z.lxor (ToInt32 (quantumHash st)) (ToInt32 (of_Z c))).
  destruct (Z.eq_dec y 0) as [->|Hy].
  - change (mul (of_Z 0) (of_Z 16777619)) with (S754_zero false).
    rewrite Hb in *. exact Hbig.
  - rewrite Hb.
    apply (at_least_weaken 24); [lia|].
    apply (add_at_least 25 10); try lia.
    apply (mul_at_least 1 25); [lia | apply of_Z_at_least, Hy |].
    vm_compute. split; discriminate.
Qed.

Lemma modulator_at_least (n : nat) :
  (113 <= n)%nat -> at_least 79 (modulator_after n).
Proof.
  intros Hn. replace n with ((n - 113) + 113)%nat by lia.
  generalize (n - 113)%nat as k. intros k.
  induction k as [|k IH].
  - vm_compute. split; discriminate.
  - change (modulator_after (S k + 113))
      with (mul (modulator_after (k + 113)) (decimal 1618 1000)).
    apply (at_least_weaken (79 + 1 - 1)); [lia|].
    apply mul_at_least; [lia | exact IH |].
    vm_compute. split; discriminate.
Qed.

(** X3.  Every text with at least 113 vowels has the signature 0: by then
    the modulator exceeds 2^78, the hash is never below 2^7 in magnitude, so
    hash * modulator + 19 is a binary64 number of at least 2^84, all of
    which are multiples of 2^32 (or it has overflowed), and [>>> 0] leaves
    0.  The offline analysis of such a text is that of the signature 0:
    frequency 400, resonance and regenerative score 0, grade "B+". *)
Theorem many_vowels_give_zero (text : jsstring) (intention : string) :
  is_utf16 text = true ->
  (113 <= List.length (filter isVowel text))%nat ->
  calculateQuantumSignature (JString text) = 0 /\
  let r := healing (offlineAnalysis (JString text) intention) in
  consciousness_frequency r = of_Z 400 /\
  healing_resonance r = of_Z 0 /\
  regenerative_score r = of_Z 0 /\
  healing_grade r = "B+".
Proof.
  intros Hwf Hn.
  assert (Hsig : calculateQuantumSignature (JString text) = 0).
  { destruct text as [|c0 text0] eqn:Etext; [cbn in Hn; lia|].
    rewrite guard_passes_nonempty_strings. rewrite <- Etext in *.
    assert (Hne : text <> []) by (rewrite Etext; discriminate).
    destruct (exists_last Hne) as (front & c & Hlast).
    unfold signature_of_string, run_loop.
    rewrite modulator_counts_vowels.
    change (Nat.iter ?n _ (consciousnessModulator loop_init))
      with (modulator_after n).
    assert (Hh : at_least 8 (quantumHash (fold_left loop_body text loop_init))).
    { rewrite Hlast, fold_left_app. cbn [fold_left].
      apply hash_at_least.
      rewrite Hlast in Hwf. unfold is_utf16 in Hwf.
      rewrite forallb_app in Hwf. apply andb_true_iff in Hwf as [_ Hc].
      cbn in Hc. rewrite andb_true_r in Hc.
      apply andb_true_iff in Hc as [Hc _]. apply Z.leb_le in Hc. exact Hc. }
    pose proof (modulator_at_least _ Hn) as HM.
    pose proof (mul_at_least 8 79 _ _ ltac:(lia) Hh HM) as HP.
    assert (HS : at_least 85
                   (add (mul (quantumHash (fold_left loop_body text loop_init))
                             (modulator_after (List.length (filter isVowel text))))
                        (of_Z apoSignature))).
    { change (of_Z apoSignature) with (S754_finite false 5348024557502464 (-48)).
      apply (add_at_least 86 5); [vm_compute; discriminate | lia | lia | exact HP]. }
    rewrite (ToUint32_at_least _ HS). reflexivity. }
  split; [exact Hsig|].
  unfold offlineAnalysis. rewrite Hsig. vm_compute. repeat split.
Qed.

Lemma many_vowels_give_zero_witness :
  calculateQuantumSignature (JString (vowel_run 113)) = 0.
Proof.
  refine (proj1 (many_vowels_give_zero (vowel_run 113) "healing" _ _)).
  - reflexivity.
  - apply Nat.leb_le. vm_compute. reflexivity.
Defined.

(** ** What the offline analysis reports *)

(** X4.  The healing resonance of an offline analysis is an exact integer:
    ten times the remainder of the signature by 100, so one of 0, 10, ...,
    990 (the division by 100 and the product with 1000 lose nothing). *)
Theorem resonance_is_ten_times_remainder (text : jsval) (intention : string) :
  let s := calculateQuantumSignature text in
  healing_resonance (healing (offlineAnalysis text intention))
  = of_Z (10 * (s mod 100)) /\
  0 <= 10 * (s mod 100) <= 990.
Proof.
  intros s.
  destruct (offline_derived_values_aux text) as (H100 & _).
  fold s in H100.
  assert (Hk : 0 <= s mod 100 < 100) by (apply Z.mod_pos_bound; lia).
  split; [|lia].
  unfold offlineAnalysis, consciousness_of. cbn [healing healing_resonance].
  fold s. rewrite H100.
  apply num_eqb_eq.
  apply (checked_on_interval
           (fun k => num_eqb (mul (div (of_Z k) (of_Z 100)) (of_Z 1000))
                             (of_Z (10 * k))) 0 100).
  - vm_compute. reflexivity.
  - exact Hk.
Qed.

(** X5.  The grade of an offline analysis is decided by the remainder of
    the signature by 200: "B+" for 0..50, "A" for 51..100 and "A+" for
    101..199; there is no other grade. *)
Theorem grade_by_remainder (text : jsval) (intention : string) :
  let j := calculateQuantumSignature text mod 200 in
  let g := healing_grade (healing (offlineAnalysis text intention)) in
  (g = "B+" <-> 0 <= j <= 50) /\
  (g = "A" <-> 51 <= j <= 100) /\
  (g = "A+" <-> 101 <= j <= 199).
Proof.
  intros j g.
  destruct (offline_derived_values_aux text) as (_ & H200).
  assert (Hj : 0 <= j < 200) by (apply Z.mod_pos_bound; lia).
  assert (Hg : g = grade_of (400 + j)).
  { unfold g, offlineAnalysis, frequency_of. cbn [healing healing_grade].
    rewrite H200. reflexivity. }
  rewrite Hg. clearbody j. clear Hg g H200. unfold grade_of.
  destruct (Z.ltb_spec 500 (400 + j)); [|destruct (Z.ltb_spec 450 (400 + j))];
    (split; [|split]); (split; intros H'); try discriminate H';
    try reflexivity; lia.
Qed.

(** X6.  The three local computations agree on a text: the frequency that
    [updateRealTimeMetrics] shows while the text is typed is the frequency
    of its offline analysis and of its offline trial analysis, and the two
    analyses carry the same regenerative score, consciousness value and
    signature. *)
Theorem local_paths_agree (pg : page) (st : state) (text : jsstring)
        (email : jsval) (intention : string) :
  textInput pg = Some text ->
  text <> [] ->
  let r := healing (offlineAnalysis (JString text) intention) in
  let t := offlineTrialAnalysis email (JString text) in
  effects (updateRealTimeMetrics pg st) = [DisplayFrequency (healing_frequency t)] /\
  consciousness_frequency r = of_Z (healing_frequency t) /\
  regenerative_score r = trial_regenerative_score t /\
  healing_resonance r = mul (healing_potential t) (of_Z 1000) /\
  consciousness_signature t = calculateQuantumSignature (JString text).
Proof.
  intros Htext Hne r t.
  unfold updateRealTimeMetrics. rewrite Htext.
  destruct text as [|c text]; [contradiction|].
  repeat split.
Qed.

Lemma local_paths_agree_witness :
  effects (updateRealTimeMetrics sample_page constructed)
  = [DisplayFrequency
       (healing_frequency (offlineTrialAnalysis JNull (JString (text_of "Love"))))].
Proof.
  refine (proj1 (local_paths_agree sample_page constructed (text_of "Love")
                   JNull "healing" eq_refl _)).
  discriminate.
Defined.

(** The gauge of an offline result is that of its two remainders. *)
Lemma offline_gauge_by_remainders (text : jsval) (intention : string) :
  Gauges.updateConsciousnessDisplay (offlineAnalysis text intention)
  = Gauges.gauge_of_remainders (calculateQuantumSignature text mod 200)
                               (calculateQuantumSignature text mod 100).
Proof.
  destruct (offline_derived_values_aux text) as (H100 & H200).
  unfold Gauges.updateConsciousnessDisplay, Gauges.gauge_of_remainders,
    offlineAnalysis, frequency_of, consciousness_of.
  cbn [healing consciousness_frequency regenerative_score].
  rewrite H100, H200. reflexivity.
Qed.

(** X7.  For an offline result, [updateConsciousnessDisplay] shows the
    computed frequency (the default 528 never replaces it); the frequency
    bar is between 40% and 59.9% wide, so the cap at 100 never applies; the
    score is between 0 and 79.2; and the dash offset of the score circle
    stays positive and at most the circumference: the circle is never drawn
    complete. *)
Theorem offline_gauge (text : jsval) (intention : string) :
  let r := offlineAnalysis text intention in
  let g := Gauges.updateConsciousnessDisplay r in
  Gauges.frequency g = consciousness_frequency (healing r) /\
  Gauges.percentage g
  = mul (div (consciousness_frequency (healing r)) (of_Z 1000)) (of_Z 100) /\
  leb (of_Z 40) (Gauges.percentage g) = true /\
  leb (Gauges.percentage g) (decimal 599 10) = true /\
  leb (of_Z 0) (Gauges.score g) = true /\
  leb (Gauges.score g) (decimal 792 10) = true /\
  ltb (of_Z 0) (Gauges.offset g) = true /\
  leb (Gauges.offset g) (Gauges.circumference g) = true.
Proof.
  intros r g.
  assert (Hg : g = Gauges.gauge_of_remainders
                     (calculateQuantumSignature text mod 200)
                     (calculateQuantumSignature text mod 100))
    by apply offline_gauge_by_remainders.
  assert (Hf : consciousness_frequency (healing r)
               = of_Z (400 + calculateQuantumSignature text mod 200)).
  { unfold r, offlineAnalysis, frequency_of. cbn [healing consciousness_frequency].
    destruct (offline_derived_values_aux text) as (_ & H200). now rewrite H200. }
  rewrite Hf, Hg.
  set (j := calculateQuantumSignature text mod 200).
  set (k := calculateQuantumSignature text mod 100).
  assert (Hj : 0 <= j < 200) by (apply Z.mod_pos_bound; lia).
  assert (Hk : 0 <= k < 100) by (apply Z.mod_pos_bound; lia).
  clearbody j k. clear Hg Hf g r.
  pose proof (checked_on_interval
    (fun j => let g := Gauges.gauge_of_remainders j 0 in
              num_eqb (Gauges.frequency g) (of_Z (400 + j))
              && num_eqb (Gauges.percentage g)
                         (mul (div (of_Z (400 + j)) (of_Z 1000)) (of_Z 100))
              && leb (of_Z 40) (Gauges.percentage g)
              && leb (Gauges.percentage g) (decimal 599 10)) 0 200
    ltac:(vm_compute; reflexivity) j Hj) as HJ.
  pose proof (checked_on_interval
    (fun k => let g := Gauges.gauge_of_remainders 0 k in
              leb (of_Z 0) (Gauges.score g)
              && leb (Gauges.score g) (decimal 792 10)
              && ltb (of_Z 0) (Gauges.offset g)
              && leb (Gauges.offset g) (Gauges.circumference g)) 0 100
    ltac:(vm_compute; reflexivity) k Hk) as HK.
  cbv zeta in HJ, HK.
  repeat (apply andb_true_iff in HJ as [HJ ?]).
  repeat (apply andb_true_iff in HK as [HK ?]).
  apply num_eqb_eq in HJ.
  match goal with H : num_eqb _ _ = true |- _ => apply num_eqb_eq in H end.
  change (Gauges.frequency (Gauges.gauge_of_remainders j k))
    with (Gauges.frequency (Gauges.gauge_of_remainders j 0)).
  change (Gauges.percentage (Gauges.gauge_of_remainders j k))
    with (Gauges.percentage (Gauges.gauge_of_remainders j 0)).
  change (Gauges.score (Gauges.gauge_of_remainders j k))
    with (Gauges.score (Gauges.gauge_of_remainders 0 k)).
  change (Gauges.offset (Gauges.gauge_of_remainders j k))
    with (Gauges.offset (Gauges.gauge_of_remainders 0 k)).
  change (Gauges.circumference (Gauges.gauge_of_remainders j k))
    with (Gauges.circumference (Gauges.gauge_of_remainders 0 k)).
  repeat split; assumption.
Qed.

(** X8.  While a text is typed, the frequency bar of
    [updateRealTimeMetrics] is between 50% and 74.875% wide (its cap at 100
    never applies), and it is always wider than the bar
    [updateConsciousnessDisplay] draws for the offline analysis of the same
    text: the two methods scale the same frequency by 800 and by 1000. *)
Theorem preview_bar_is_wider (pg : page) (st : state) (text : jsstring)
        (intention : string) :
  textInput pg = Some text ->
  text <> [] ->
  exists f : Z,
    effects (updateRealTimeMetrics pg st) = [DisplayFrequency f] /\
    Gauges.realtime_percentage f = mul (div (of_Z f) (of_Z 800)) (of_Z 100) /\
    leb (of_Z 50) (Gauges.realtime_percentage f) = true /\
    leb (Gauges.realtime_percentage f) (decimal 74875 1000) = true /\
    ltb (Gauges.percentage
           (Gauges.updateConsciousnessDisplay
              (offlineAnalysis (JString text) intention)))
        (Gauges.realtime_percentage f) = true.
Proof.
  intros Htext Hne.
  set (s := calculateQuantumSignature (JString text)).
  exists (400 + s mod 200).
  destruct (offline_derived_values_aux (JString text)) as (_ & H200). fold s in H200.
  split.
  { unfold updateRealTimeMetrics. rewrite Htext.
    destruct text as [|c text]; [contradiction|].
    cbn [effects]. fold s. now rewrite H200. }
  rewrite offline_gauge_by_remainders. fold s.
  change (Gauges.percentage (Gauges.gauge_of_remainders (s mod 200) (s mod 100)))
    with (Gauges.percentage (Gauges.gauge_of_remainders (s mod 200) 0)).
  assert (Hj : 0 <= s mod 200 < 200) by (apply Z.mod_pos_bound; lia).
  set (j := s mod 200) in *. clearbody j. clear H200 s.
  pose proof (checked_on_interval
    (fun j => let p := Gauges.realtime_percentage (400 + j) in
              num_eqb p (mul (div (of_Z (400 + j)) (of_Z 800)) (of_Z 100))
              && leb (of_Z 50) p
              && leb p (decimal 74875 1000)
              && ltb (Gauges.percentage (Gauges.gauge_of_remainders j 0)) p) 0 200
    ltac:(vm_compute; reflexivity) j Hj) as HJ.
  cbv zeta in HJ.
  repeat (apply andb_true_iff in HJ as [HJ ?]).
  apply num_eqb_eq in HJ.
  repeat split; assumption.
Qed.

Lemma preview_bar_is_wider_witness :
  exists f : Z,
    effects (updateRealTimeMetrics sample_page constructed) = [DisplayFrequency f] /\
    leb (of_Z 50) (Gauges.realtime_percentage f) = true.
Proof.
  destruct (preview_bar_is_wider sample_page constructed (text_of "Love") "healing"
              eq_refl ltac:(discriminate)) as (f & H1 & _ & H2 & _).
  exists f. split; assumption.
Defined.

(** ** Sessions *)

Lemma run_steps_cons (s : Session.step) (l : list Session.step)
      (ss : Session.session) :
  Session.run_steps (s :: l) ss = Session.run_steps l (fst (Session.act s ss)).
Proof. reflexivity. Qed.

Lemma analyses_cons (s : Session.step) (l : list Session.step) :
  Session.analyses (s :: l)
  = ((if Session.starts s then 1 else 0) + Session.analyses l)%nat.
Proof.
  unfold Session.analyses. cbn [filter].
  destruct (Session.starts s); reflexivity.
Qed.

Lemma served_cons (s : Session.step) (l : list Session.step) :
  Session.served (s :: l) = Session.served [s] ++ Session.served l.
Proof.
  unfold Session.served. cbn [flat_map]. now rewrite app_nil_r.
Qed.

Lemma length_without {A : Type} (l : list A) :
  forall k x, nth_error l k = Some x ->
              (List.length (Session.without k l) + 1 = List.length l)%nat.
Proof.
  induction l as [|y l IH]; intros [|k] x H; cbn in H; try discriminate.
  - cbn. lia.
  - cbn [Session.without List.length]. specialize (IH k x H). lia.
Qed.

Lemma nth_error_last {A : Type} (l : list A) (x : A) :
  nth_error (l ++ [x]) (List.length l) = Some x.
Proof. induction l as [|y l IH]; [reflexivity | exact IH]. Qed.

Lemma without_last {A : Type} (l : list A) (x : A) :
  Session.without (List.length l) (l ++ [x]) = l.
Proof.
  induction l as [|y l IH]; [reflexivity|].
  cbn [app List.length Session.without]. now rewrite IH.
Qed.

(** A call that nothing overlaps is its beginning followed at once by the
    answer to it. *)
Lemma whole_is_begin_then_answer (pg : page) (remote : response (parsed result))
      (ss : Session.session) :
  Session.run_steps
    [Session.Begin pg; Session.Answer (List.length (Session.awaiting ss)) remote] ss
  = fst (Session.act (Session.Whole (AnalyzeConsciousness pg remote)) ss) /\
  Session.trace
    [Session.Begin pg; Session.Answer (List.length (Session.awaiting ss)) remote] ss
  = snd (Session.act (Session.Whole (AnalyzeConsciousness pg remote)) ss).
Proof.
  unfold Session.run_steps.
  cbn [fold_left Session.trace Session.act perform].
  unfold analyzeConsciousness.
  destruct (analyze_begin pg (Session.instance ss)) as [o|text intention] eqn:Hbegin.
  - cbn [fst snd Session.awaiting Session.instance].
    assert (Hnone : nth_error (Session.awaiting ss)
                              (List.length (Session.awaiting ss)) = None)
      by (apply nth_error_None; lia).
    rewrite Hnone. cbn [fst snd]. now rewrite !app_nil_r.
  - cbn [fst snd Session.awaiting Session.instance].
    rewrite nth_error_last, without_last. cbn [fst snd final effects].
    now rewrite app_nil_r.
Qed.

Lemma conclude_history (r : result) (st : state) :
  analysisHistory (final (conclude r st)) = analysisHistory st ++ [r].
Proof. reflexivity. Qed.

(** What the answer to a call does to the history. *)
Lemma analyze_resume_history (text : jsval) (intention : string)
      (remote : response (parsed result)) (st : state) :
  exists added,
    analysisHistory (final (analyze_resume text intention remote st))
    = analysisHistory st ++ added /\
    List.length added
    = match succeeded remote with Some IllShaped => 0%nat | _ => 1%nat end.
Proof.
  unfold analyze_resume. destruct (succeeded remote) as [[r|]|].
  - exists [r]. split; reflexivity.
  - exists []. split; [symmetry; apply app_nil_r | reflexivity].
  - eexists [_]. split; reflexivity.
Qed.

(** What the beginning of a call does when it does not await. *)
Lemma analyze_begin_history (pg : page) (st : state) (o : outcome) :
  analyze_begin pg st = Finished o ->
  exists added,
    analysisHistory (final o) = analysisHistory st ++ added /\
    List.length added = (if Session.accepted pg then 1 else 0)%nat.
Proof.
  unfold analyze_begin, Session.accepted.
  destruct (truthy (value_of (textInput pg))); cbn [negb andb].
  - destruct (analyzeBtn pg); cbn [negb].
    + destruct (negb (offline st)); [discriminate|].
      intros [= <-]. eexists [_]. split; reflexivity.
    + intros [= <-]. exists []. split; [symmetry; apply app_nil_r | reflexivity].
  - intros [= <-]. exists []. split; [symmetry; apply app_nil_r | reflexivity].
Qed.

(** A call that awaits was accepted. *)
Lemma analyze_begin_fetching (pg : page) (st : state) (text : jsval)
      (intention : string) :
  analyze_begin pg st = Fetching text intention ->
  Session.accepted pg = true /\ offline st = false.
Proof.
  unfold analyze_begin, Session.accepted.
  destruct (truthy (value_of (textInput pg))); cbn [negb andb]; [|discriminate].
  destruct (analyzeBtn pg); cbn [negb]; [|discriminate].
  destruct (offline st); cbn [negb]; [discriminate|]. intros _. split; reflexivity.
Qed.

(** The calls other than [analyzeConsciousness] leave the history. *)
Lemma perform_other_history (c : call) (st : state) :
  (forall pg remote, c <> AnalyzeConsciousness pg remote) ->
  analysisHistory (final (perform c st)) = analysisHistory st.
Proof.
  intros Hc.
  destruct c as [remote | pg remote | pg remote | pg | remote]; cbn [perform].
  - unfold checkAPIConnection. destruct (succeeded remote) as [[service|]|]; reflexivity.
  - exfalso. apply (Hc pg remote). reflexivity.
  - unfold handleFreeTrial.
    destruct (negb (truthy (value_of (emailInput pg)))
              || negb (truthy (value_of (textInput pg)))); [reflexivity|].
    destruct (succeeded remote) as [[r|]|]; reflexivity.
  - unfold updateRealTimeMetrics. destruct (textInput pg) as [[|c s]|]; reflexivity.
  - unfold loadSustainabilityMetrics.
    destruct (succeeded remote) as [[m|]|]; reflexivity.
Qed.

(** What one step does to the history and to the awaiting calls. *)
Lemma act_history (s : Session.step) (ss : Session.session) :
  exists added,
    analysisHistory (Session.instance (fst (Session.act s ss)))
    = analysisHistory (Session.instance ss) ++ added /\
    (List.length added + List.length (Session.awaiting (fst (Session.act s ss)))
     <= List.length (Session.awaiting ss) + (if Session.starts s then 1 else 0))%nat /\
    (Session.shown s = true ->
     (List.length added + List.length (Session.awaiting (fst (Session.act s ss)))
      = List.length (Session.awaiting ss) + (if Session.starts s then 1 else 0))%nat).
Proof.
  destruct s as [c | pg | k remote].
  - destruct c as [remote | pg remote | pg remote | pg | remote];
      try (exists []; cbn [Session.act fst Session.instance Session.awaiting
                           Session.starts Session.shown List.length];
           rewrite perform_other_history by (intros; discriminate);
           split; [symmetry; apply app_nil_r | split; [lia | intros _; lia]]).
    cbn [Session.act fst Session.instance Session.awaiting Session.starts
         Session.shown perform].
    unfold analyzeConsciousness.
    destruct (analyze_begin pg (Session.instance ss)) as [o|text intention] eqn:Hbegin.
    + destruct (analyze_begin_history _ _ _ Hbegin) as (added & H & L).
      exists added. split; [exact H|]. rewrite L.
      destruct (Session.accepted pg); split; try lia; intros _; lia.
    + destruct (analyze_begin_fetching _ _ _ _ Hbegin) as [Hacc _]. rewrite Hacc.
      destruct (analyze_resume_history text intention remote (Session.instance ss))
        as (added & H & L).
      exists added. cbn [final]. split; [exact H|]. rewrite L.
      destruct (succeeded remote) as [[r|]|]; split; try lia; try (intros _; lia).
  - cbn [Session.act Session.starts Session.shown].
    destruct (analyze_begin pg (Session.instance ss)) as [o|text intention] eqn:Hbegin.
    + destruct (analyze_begin_history _ _ _ Hbegin) as (added & H & L).
      exists added. cbn [fst Session.instance Session.awaiting].
      split; [exact H|]. rewrite L.
      destruct (Session.accepted pg); split; try lia; intros _; lia.
    + destruct (analyze_begin_fetching _ _ _ _ Hbegin) as [Hacc _]. rewrite Hacc.
      exists []. cbn [fst Session.instance Session.awaiting List.length].
      rewrite length_app. cbn [List.length].
      split; [symmetry; apply app_nil_r|]. split; [lia | intros _; lia].
  - cbn [Session.act Session.starts Session.shown].
    destruct (nth_error (Session.awaiting ss) k) as [[text intention]|] eqn:Hk.
    + destruct (analyze_resume_history text intention remote (Session.instance ss))
        as (added & H & L).
      exists added. cbn [fst Session.instance Session.awaiting].
      split; [exact H|]. rewrite L.
      pose proof (length_without _ _ _ Hk) as Hlen.
      destruct (succeeded remote) as [[r|]|]; split; try lia; try (intros _; lia).
    + exists []. cbn [fst List.length].
      split; [symmetry; apply app_nil_r|]. split; [lia | intros _; lia].
Qed.

(** X9.  The history is append-only, also when calls overlap: along every
    sequence of steps the history at the start is a prefix of the history
    at the end; every entry added belongs to a call of
    [analyzeConsciousness] that was made with a non-empty text on a page
    with the analyze button, or that was awaiting its answer at the start,
    and each such call adds at most one entry, none while it awaits.  When
    no answer is a body that cannot be shown, each such call that is no
    longer awaiting has added exactly one.  No other call adds, removes or
    reorders entries. *)
Theorem history_is_append_only (l : list Session.step) (ss : Session.session) :
  exists added,
    analysisHistory (Session.instance (Session.run_steps l ss))
    = analysisHistory (Session.instance ss) ++ added /\
    (List.length added + List.length (Session.awaiting (Session.run_steps l ss))
     <= List.length (Session.awaiting ss) + Session.analyses l)%nat /\
    (forallb Session.shown l = true ->
     (List.length added + List.length (Session.awaiting (Session.run_steps l ss))
      = List.length (Session.awaiting ss) + Session.analyses l)%nat).
Proof.
  revert ss. induction l as [|s l IH]; intros ss.
  - exists []. cbn. split; [symmetry; apply app_nil_r|]. split; [lia | intros _; lia].
  - rewrite run_steps_cons, analyses_cons.
    destruct (act_history s ss) as (a1 & H1 & L1 & E1).
    destruct (IH (fst (Session.act s ss))) as (a2 & H2 & L2 & E2).
    exists (a1 ++ a2). split; [|split].
    + rewrite H2, H1. now rewrite app_assoc.
    + rewrite length_app. lia.
    + intros Hall. cbn [forallb] in Hall. apply andb_true_iff in Hall as [Hs Hl].
      specialize (E1 Hs). specialize (E2 Hl). rewrite length_app. lia.
Qed.

Lemma history_is_append_only_witness :
  exists added,
    analysisHistory (Session.instance
                       (Session.run_steps overlapping (Session.quiet constructed)))
    = added /\
    List.length added = 1%nat.
Proof.
  destruct (history_is_append_only overlapping (Session.quiet constructed))
    as (added & H1 & _ & H3).
  exists added. split; [exact H1|].
  specialize (H3 eq_refl). cbn in H3. lia.
Defined.

Lemma fetches_app (a b : list event) : fetches (a ++ b) = fetches a ++ fetches b.
Proof. unfold fetches. apply flat_map_app. Qed.

Lemma offlineAnalysis_is_offline (text : jsval) (intention : string) :
  analysis_mode (offlineAnalysis text intention) = "offline".
Proof. reflexivity. Qed.

Lemma conclude_fetches (r : result) (st : state) :
  fetches (effects (conclude r st)) = [].
Proof. unfold conclude. cbn [effects]. destruct (offline (push_history r st)); reflexivity. Qed.

Lemma analyze_resume_fetches (text : jsval) (intention : string)
      (remote : response (parsed result)) (st : state) :
  fetches (effects (analyze_resume text intention remote st)) = [].
Proof.
  unfold analyze_resume. destruct (succeeded remote) as [[r|]|];
    [apply conclude_fetches | reflexivity | apply conclude_fetches].
Qed.

(** With the flag set, the beginning of a call is the whole call, and it
    runs locally. *)
Lemma analyze_begin_when_offline (pg : page) (st : state) :
  offline st = true ->
  exists o,
    analyze_begin pg st = Finished o /\
    fetches (effects o) = [] /\
    exists added,
      analysisHistory (final o) = analysisHistory st ++ added /\
      Forall (fun r => Session.local r /\ analysis_mode r = "offline") added.
Proof.
  intros Hoff. unfold analyze_begin.
  destruct (negb (truthy (value_of (textInput pg)))).
  { eexists. split; [reflexivity|]. split; [reflexivity|].
    exists []. split; [symmetry; apply app_nil_r | constructor]. }
  destruct (negb (analyzeBtn pg)).
  { eexists. split; [reflexivity|]. split; [reflexivity|].
    exists []. split; [symmetry; apply app_nil_r | constructor]. }
  rewrite Hoff. cbn [negb].
  eexists. split; [reflexivity|]. split; [apply conclude_fetches|].
  eexists [_]. split; [reflexivity|].
  constructor; [|constructor]. split; [|reflexivity].
  eexists. eexists. reflexivity.
Qed.

(** The calls other than [analyzeConsciousness] do not fetch the analysis
    endpoint. *)
Lemma perform_other_fetches (c : call) (st : state) :
  (forall pg remote, c <> AnalyzeConsciousness pg remote) ->
  ~ In HealingAnalysis (fetches (effects (perform c st))).
Proof.
  intros Hc.
  destruct c as [remote | pg remote | pg remote | pg | remote]; cbn [perform].
  - unfold checkAPIConnection. destruct (succeeded remote) as [[service|]|];
      intros [H|[]]; discriminate H.
  - exfalso. apply (Hc pg remote). reflexivity.
  - unfold handleFreeTrial.
    destruct (negb (truthy (value_of (emailInput pg)))
              || negb (truthy (value_of (textInput pg)))); [intros []|].
    destruct (succeeded remote) as [[r|]|]; intros [H|[]]; discriminate H.
  - unfold updateRealTimeMetrics. destruct (textInput pg) as [[|c s]|]; intros [].
  - unfold loadSustainabilityMetrics.
    destruct (succeeded remote) as [[m|]|]; intros [H|[]]; discriminate H.
Qed.

(** Every step changes the instance by a sequence of the assignments. *)
Lemma act_assigns (s : Session.step) (ss : Session.session) :
  assignments (Session.instance ss) (Session.instance (fst (Session.act s ss))).
Proof.
  destruct s as [c | pg | k remote]; cbn [Session.act].
  - apply perform_assigns.
  - destruct (analyze_begin pg (Session.instance ss)) as [o|text intention] eqn:Hbegin.
    + apply (analyze_begin_assigns _ _ _ Hbegin).
    + apply assignments_nil.
  - destruct (nth_error (Session.awaiting ss) k) as [[text intention]|].
    + apply analyze_resume_assigns.
    + apply assignments_nil.
Qed.

(** Once the flag is set, a step does not fetch the analysis endpoint, and
    what it appends is computed locally or is the answer to a call that was
    awaiting. *)
Lemma act_when_offline (s : Session.step) (ss : Session.session) :
  offline (Session.instance ss) = true ->
  ~ In HealingAnalysis (fetches (snd (Session.act s ss))) /\
  (List.length (Session.awaiting (fst (Session.act s ss)))
   <= List.length (Session.awaiting ss))%nat /\
  exists added,
    analysisHistory (Session.instance (fst (Session.act s ss)))
    = analysisHistory (Session.instance ss) ++ added /\
    Forall (fun r => Session.local r \/ In r (Session.served [s])) added /\
    (Session.awaiting ss = [] ->
     Forall (fun r => Session.local r /\ analysis_mode r = "offline") added).
Proof.
  intros Hoff.
  destruct s as [c | pg | k remote].
  - destruct c as [remote | pg remote | pg remote | pg | remote];
      try (cbn [Session.act fst snd Session.instance Session.awaiting];
           split; [apply perform_other_fetches; intros; discriminate|];
           split; [lia|]; exists [];
           rewrite perform_other_history by (intros; discriminate);
           split; [symmetry; apply app_nil_r|]; split; [constructor|];
           intros _; constructor).
    cbn [Session.act fst snd Session.instance Session.awaiting perform].
    unfold analyzeConsciousness.
    destruct (analyze_begin_when_offline pg _ Hoff) as (o & -> & F & added & H & A).
    rewrite F. split; [intros []|]. split; [lia|].
    exists added. split; [exact H|]. split; [|intros _; exact A].
    eapply Forall_impl; [|exact A]. intros r [Hr _]. left. exact Hr.
  - cbn [Session.act].
    destruct (analyze_begin_when_offline pg _ Hoff) as (o & -> & F & added & H & A).
    cbn [fst snd Session.instance Session.awaiting].
    rewrite F. split; [intros []|]. split; [lia|].
    exists added. split; [exact H|]. split; [|intros _; exact A].
    eapply Forall_impl; [|exact A]. intros r [Hr _]. left. exact Hr.
  - cbn [Session.act].
    destruct (nth_error (Session.awaiting ss) k) as [[text intention]|] eqn:Hk.
    + cbn [fst snd Session.instance Session.awaiting].
      rewrite analyze_resume_fetches. split; [intros []|].
      pose proof (length_without _ _ _ Hk) as Hlen. split; [lia|].
      unfold analyze_resume, Session.served. cbn [flat_map].
      destruct (succeeded remote) as [[r|]|].
      * exists [r]. split; [reflexivity|]. split.
        -- constructor; [right; left; reflexivity | constructor].
        -- intros Hnil. rewrite Hnil in Hk. destruct k; discriminate Hk.
      * exists []. split; [symmetry; apply app_nil_r|]. split; [constructor|].
        intros _. constructor.
      * eexists [_]. split; [reflexivity|]. split.
        -- constructor; [|constructor]. left. eexists. eexists. reflexivity.
        -- intros Hnil. rewrite Hnil in Hk. destruct k; discriminate Hk.
    + cbn [fst snd]. split; [intros []|]. split; [lia|].
      exists []. split; [symmetry; apply app_nil_r|]. split; [constructor|].
      intros _. constructor.
Qed.

(** X10.  Once the instance is offline, the analysis endpoint is never
    fetched again, whatever steps follow, and the instance stays offline:
    the service is not consulted again even if it has recovered.  Every
    entry added to the history from then on is computed by
    [offlineAnalysis], or is the service's answer to a call that had issued
    its fetch before the flag was set and was still awaiting it; when no
    call is awaiting, every entry added is an offline result (mode
    'offline'). *)
Theorem offline_never_fetches_analysis (l : list Session.step)
        (ss : Session.session) :
  offline (Session.instance ss) = true ->
  ~ In HealingAnalysis (fetches (Session.trace l ss)) /\
  offline (Session.instance (Session.run_steps l ss)) = true /\
  (List.length (Session.awaiting (Session.run_steps l ss))
   <= List.length (Session.awaiting ss))%nat /\
  exists added,
    analysisHistory (Session.instance (Session.run_steps l ss))
    = analysisHistory (Session.instance ss) ++ added /\
    Forall (fun r => Session.local r \/ In r (Session.served l)) added /\
    (Session.awaiting ss = [] ->
     Forall (fun r => Session.local r /\ analysis_mode r = "offline") added).
Proof.
  revert ss. induction l as [|s l IH]; intros ss Hoff.
  - cbn. split; [tauto|]. split; [exact Hoff|]. split; [lia|].
    exists []. split; [symmetry; apply app_nil_r|]. split; [constructor|].
    intros _. constructor.
  - rewrite run_steps_cons. cbn [Session.trace]. rewrite fetches_app.
    destruct (act_when_offline s ss Hoff) as (F1 & L1 & a1 & H1 & A1 & Q1).
    assert (Hoff1 : offline (Session.instance (fst (Session.act s ss))) = true)
      by (apply (assignments_keep_offline _ _ (act_assigns s ss) Hoff)).
    destruct (IH _ Hoff1) as (F2 & O2 & L2 & a2 & H2 & A2 & Q2).
    split; [intros Hin; apply in_app_or in Hin; tauto|].
    split; [exact O2|]. split; [lia|].
    exists (a1 ++ a2). split; [|split].
    + rewrite H2, H1. now rewrite app_assoc.
    + rewrite served_cons. apply Forall_app. split.
      * eapply Forall_impl; [|exact A1]. intros r [Hr|Hr]; [left; exact Hr|].
        right. apply in_or_app. left. exact Hr.
      * eapply Forall_impl; [|exact A2]. intros r [Hr|Hr]; [left; exact Hr|].
        right. apply in_or_app. right. exact Hr.
    + intros Hnil. apply Forall_app. split; [exact (Q1 Hnil)|].
      apply Q2. rewrite Hnil in L1. cbn in L1.
      destruct (Session.awaiting (fst (Session.act s ss))); [reflexivity|].
      cbn in L1. lia.
Qed.

Lemma offline_never_fetches_analysis_witness :
  ~ In HealingAnalysis (fetches (Session.trace late_answer in_flight)) /\
  analysisHistory (Session.instance (Session.run_steps late_answer in_flight))
  = [served_result; offlineAnalysis (JString (text_of "Love")) "wisdom"].
Proof.
  split.
  - refine (proj1 (offline_never_fetches_analysis late_answer in_flight _)).
    reflexivity.
  - reflexivity.
Defined.

(** A step whose response is a success leaves the flag as it was. *)
Lemma act_answered (s : Session.step) (ss : Session.session) :
  Session.answers s = true ->
  isOfflineMode (Session.instance (fst (Session.act s ss)))
  = isOfflineMode (Session.instance ss).
Proof.
  destruct s as [c | pg | k remote]; cbn [Session.act Session.answers].
  - destruct c as [remote | pg remote | pg remote | pg | remote];
      cbn [perform fst Session.instance]; intros Hok.
    + unfold checkAPIConnection.
      destruct (succeeded remote) as [[service|]|]; [reflexivity | discriminate..].
    + unfold analyzeConsciousness, analyze_begin.
      destruct (negb (truthy (value_of (textInput pg)))); [reflexivity|].
      destruct (negb (analyzeBtn pg)); [reflexivity|].
      destruct (negb (offline (Session.instance ss))); [|reflexivity].
      unfold analyze_resume.
      destruct (succeeded remote) as [[r|]|]; [reflexivity.. | discriminate].
    + unfold handleFreeTrial.
      destruct (negb (truthy (value_of (emailInput pg)))
                || negb (truthy (value_of (textInput pg)))); [reflexivity|].
      destruct (succeeded remote) as [[r|]|]; reflexivity.
    + unfold updateRealTimeMetrics. destruct (textInput pg) as [[|c s]|]; reflexivity.
    + unfold loadSustainabilityMetrics.
      destruct (succeeded remote) as [[m|]|]; reflexivity.
  - intros _. unfold analyze_begin.
    destruct (negb (truthy (value_of (textInput pg)))); [reflexivity|].
    destruct (negb (analyzeBtn pg)); [reflexivity|].
    destruct (negb (offline (Session.instance ss))); reflexivity.
  - intros Hok.
    destruct (nth_error (Session.awaiting ss) k) as [[text intention]|];
      [|reflexivity].
    cbn [fst Session.instance]. unfold analyze_resume.
    destruct (succeeded remote) as [[r|]|]; [reflexivity.. | discriminate].
Qed.

(** X11.  The instance never goes offline without a failure, also when
    calls overlap: when every probe in a sequence of steps is answered with
    a body whose service name can be read, and every fetch of the analysis
    is answered with a parsed body, the offline flag is at the end what it
    was at the start.  A failing free-trial or metrics fetch does not touch
    it.  Conversely every other probe sets the flag (a probe answered 200
    with a body such as [null] among them), and so does every analysis
    whose fetch fails. *)
Theorem no_failure_no_offline (l : list Session.step) (ss : Session.session) :
  (forallb Session.answers l = true ->
   isOfflineMode (Session.instance (Session.run_steps l ss))
   = isOfflineMode (Session.instance ss)) /\
  (forall remote st,
      Session.answers (Session.Whole (CheckAPIConnection remote)) = false ->
      isOfflineMode (final (checkAPIConnection remote st)) = Some true) /\
  (forall text intention remote st,
      succeeded remote = None ->
      isOfflineMode (final (analyze_resume text intention remote st)) = Some true).
Proof.
  split; [|split].
  - revert ss. induction l as [|s l IH]; intros ss Hall; [reflexivity|].
    cbn [forallb] in Hall. apply andb_true_iff in Hall as [Hs Hl].
    rewrite run_steps_cons, (IH _ Hl). apply act_answered, Hs.
  - intros remote st. cbn [Session.answers]. unfold checkAPIConnection.
    destruct (succeeded remote) as [[service|]|]; [discriminate | reflexivity..].
  - intros text intention remote st Hfail. unfold analyze_resume.
    rewrite Hfail. reflexivity.
Qed.

Lemma no_failure_no_offline_witness :
  isOfflineMode
    (Session.instance
       (Session.run_steps
          [Session.Whole (CheckAPIConnection (Answered true (Some (Shaped None))));
           Session.Begin sample_page;
           Session.Whole (HandleFreeTrial sample_page Rejected);
           Session.Whole (LoadSustainabilityMetrics Rejected);
           Session.Answer 0 (Answered true (Some (Shaped served_result)))]
          (Session.quiet constructed)))
  = isOfflineMode constructed /\
  isOfflineMode (final (checkAPIConnection (Answered true (Some IllShaped))
                                           constructed)) = Some true.
Proof.
  pose proof (no_failure_no_offline
                [Session.Whole (CheckAPIConnection (Answered true (Some (Shaped None))));
                 Session.Begin sample_page;
                 Session.Whole (HandleFreeTrial sample_page Rejected);
                 Session.Whole (LoadSustainabilityMetrics Rejected);
                 Session.Answer 0 (Answered true (Some (Shaped served_result)))]
                (Session.quiet constructed)) as (H1 & H2 & _).
  split; [apply H1; reflexivity | apply H2; reflexivity].
Defined.

(** The steps other than a refresh leave the stored metrics. *)
Lemma act_metrics (s : Session.step) (ss : Session.session) :
  sustainabilityMetrics (Session.instance (fst (Session.act s ss)))
  = Session.last_body [s] (sustainabilityMetrics (Session.instance ss)).
Proof.
  unfold Session.last_body. cbn [fold_left].
  destruct s as [c | pg | k remote]; cbn [Session.act].
  - destruct c as [remote | pg remote | pg remote | pg | remote];
      cbn [perform fst Session.instance].
    + unfold checkAPIConnection. destruct (succeeded remote) as [[service|]|]; reflexivity.
    + unfold analyzeConsciousness, analyze_begin.
      destruct (negb (truthy (value_of (textInput pg)))); [reflexivity|].
      destruct (negb (analyzeBtn pg)); [reflexivity|].
      destruct (negb (offline (Session.instance ss))); [|reflexivity].
      unfold analyze_resume. destruct (succeeded remote) as [[r|]|]; reflexivity.
    + unfold handleFreeTrial.
      destruct (negb (truthy (value_of (emailInput pg)))
                || negb (truthy (value_of (textInput pg)))); [reflexivity|].
      destruct (succeeded remote) as [[r|]|]; reflexivity.
    + unfold updateRealTimeMetrics. destruct (textInput pg) as [[|c s]|]; reflexivity.
    + unfold loadSustainabilityMetrics.
      destruct (succeeded remote) as [[m|]|]; reflexivity.
  - unfold analyze_begin.
    destruct (negb (truthy (value_of (textInput pg)))); [reflexivity|].
    destruct (negb (analyzeBtn pg)); [reflexivity|].
    destruct (negb (offline (Session.instance ss))); reflexivity.
  - destruct (nth_error (Session.awaiting ss) k) as [[text intention]|];
      [|reflexivity].
    cbn [fst Session.instance]. unfold analyze_resume.
    destruct (succeeded remote) as [[r|]|]; reflexivity.
Qed.

(** X12.  The stored metrics are always the body of the most recent refresh
    that was answered with a parsed body (or what was stored before, when
    there was none): a refresh whose fetch rejects, whose status is not ok
    or whose body does not parse leaves them, and so does every other call.
    The body is stored whether or not it could then be displayed, so the
    field holds the last snapshot displayed only when the last parsed body
    could be shown; the default snapshot is never stored. *)
Theorem stored_metrics_are_last_body (l : list Session.step)
        (ss : Session.session) :
  sustainabilityMetrics (Session.instance (Session.run_steps l ss))
  = Session.last_body l (sustainabilityMetrics (Session.instance ss)) /\
  (forall remote st,
      succeeded remote = None ->
      sustainabilityMetrics (final (loadSustainabilityMetrics remote st))
      = sustainabilityMetrics st) /\
  (forall ok body st,
      sustainabilityMetrics
        (final (loadSustainabilityMetrics (Answered ok (Some body)) st))
      = if ok then Some body else sustainabilityMetrics st).
Proof.
  split; [|split].
  - revert ss. induction l as [|s l IH]; intros ss; [reflexivity|].
    rewrite run_steps_cons, IH, act_metrics. reflexivity.
  - intros remote st Hfail. unfold loadSustainabilityMetrics. rewrite Hfail.
    reflexivity.
  - intros [|] [m|] st; reflexivity.
Qed.

Lemma stored_metrics_are_last_body_witness :
  sustainabilityMetrics
    (Session.instance
       (Session.run_steps
          [Session.Whole (LoadSustainabilityMetrics
                            (Answered true (Some (Shaped earlier_snapshot))));
           Session.Whole (LoadSustainabilityMetrics (Answered true (Some IllShaped)));
           Session.Whole (LoadSustainabilityMetrics Rejected)]
          (Session.quiet constructed)))
  = Some IllShaped /\
  sustainabilityMetrics
    (final (loadSustainabilityMetrics (Answered false None)
              (set_metrics (Shaped earlier_snapshot) constructed)))
  = Some (Shaped earlier_snapshot).
Proof.
  pose proof (stored_metrics_are_last_body
                [Session.Whole (LoadSustainabilityMetrics
                                  (Answered true (Some (Shaped earlier_snapshot))));
                 Session.Whole (LoadSustainabilityMetrics
                                  (Answered true (Some IllShaped)));
                 Session.Whole (LoadSustainabilityMetrics Rejected)]
                (Session.quiet constructed)) as (H1 & H2 & _).
  split; [rewrite H1; reflexivity | apply H2; reflexivity].
Defined.

(** ** Single calls *)

(** X13.  When the instance is not offline, a call with a non-empty text on
    a page with the button fetches the analysis.  When the service answers
    with a result that can be shown, the rest of the call, run on the
    instance as it is by then, displays the result and appends it as it
    came, leaves the offline flag and the stored metrics alone and shows no
    error; it shows the upgrade notice exactly when the flag is set by
    then.  So a call that nothing overlaps fetches once, appends the result
    and shows neither an error nor the notice. *)
Theorem online_analysis (pg : page) (st later : state) (text : jsstring)
        (r : result) :
  textInput pg = Some text ->
  text <> [] ->
  analyzeBtn pg = true ->
  offline st = false ->
  analyze_begin pg st = Fetching (JString text) (intention_of pg) /\
  (let o := analyze_resume (JString text) (intention_of pg)
                           (Answered true (Some (Shaped r))) later in
   ended o = Returned /\
   analysisHistory (final o) = analysisHistory later ++ [r] /\
   isOfflineMode (final o) = isOfflineMode later /\
   sustainabilityMetrics (final o) = sustainabilityMetrics later /\
   effects o = [DisplayAnalysisResults r; UpdateConsciousnessDisplay r]
               ++ (if offline later then [ShowInfo upgrade_notice] else [])) /\
  (let o := analyzeConsciousness pg (Answered true (Some (Shaped r))) st in
   ended o = Returned /\
   final o = push_history r st /\
   effects o = [Fetch HealingAnalysis; DisplayAnalysisResults r;
                UpdateConsciousnessDisplay r]).
Proof.
  intros Htext Hne Hbtn Hoff.
  pose proof (analyze_begin_accepted pg st text Htext Hne Hbtn) as Hbegin.
  rewrite Hoff in Hbegin.
  split; [exact Hbegin|]. split.
  - cbv zeta. unfold analyze_resume, conclude.
    cbn [succeeded ended final effects push_history analysisHistory isOfflineMode
         sustainabilityMetrics].
    assert (Hsame : offline (push_history r later) = offline later) by reflexivity.
    rewrite Hsame.
    split; [reflexivity|]. split; [reflexivity|]. split; [reflexivity|].
    split; reflexivity.
  - cbv zeta. unfold analyzeConsciousness. rewrite Hbegin.
    unfold analyze_resume, conclude. cbn [succeeded ended final effects].
    assert (Hsame : offline (push_history r st) = false) by exact Hoff.
    rewrite Hsame. split; [reflexivity|]. split; reflexivity.
Qed.

Lemma online_analysis_witness :
  analysisHistory
    (final (analyzeConsciousness sample_page
              (Answered true (Some (Shaped served_result))) constructed))
  = [served_result].
Proof.
  pose proof (online_analysis sample_page constructed constructed (text_of "Love")
                served_result eq_refl ltac:(discriminate) eq_refl eq_refl)
    as (_ & _ & _ & H & _).
  rewrite H. reflexivity.
Defined.

(** X14.  On a page without the analyze button, a call with a non-empty
    text throws before it does anything: the button is written to outside
    the [try], so nothing is fetched, displayed or appended, and the
    exception leaves the method. *)
Theorem missing_button_throws (pg : page) (remote : response (parsed result))
        (st : state) (text : jsstring) :
  textInput pg = Some text ->
  text <> [] ->
  analyzeBtn pg = false ->
  analyzeConsciousness pg remote st
  = {| ended := Thrown; final := st; effects := [] |}.
Proof.
  intros Htext Hne Hbtn.
  unfold analyzeConsciousness, analyze_begin. rewrite Htext, Hbtn.
  destruct text as [|c text]; [contradiction | reflexivity].
Qed.

Lemma missing_button_throws_witness :
  ended (analyzeConsciousness bare_page Rejected constructed) = Thrown.
Proof.
  rewrite (missing_button_throws bare_page Rejected constructed (text_of "Love")
             eq_refl ltac:(discriminate) eq_refl).
  reflexivity.
Defined.



(** ** The life cycle *)

(** X16.  [init] always ends by throwing: the class defines neither
    [dispatchAPOReadyEvent], which the [try] calls last, nor
    [handleInitializationError], which the [catch] calls.  By then the
    probe and the first load of the metrics have run and both flags are
    set, whatever the service answered. *)
Theorem init_always_throws (probe : response (parsed (option string)))
        (metrics : response (parsed Metrics.snapshot)) (i : Lifecycle.instance) :
  Lifecycle.defines "dispatchAPOReadyEvent" = false /\
  Lifecycle.defines "handleInitializationError" = false /\
  fst (Lifecycle.init probe metrics i) = Thrown /\
  Lifecycle.isInitialized (snd (Lifecycle.init probe metrics i)) = true /\
  Lifecycle.isQuantumFieldActive (snd (Lifecycle.init probe metrics i)) = true /\
  Lifecycle.fields (snd (Lifecycle.init probe metrics i))
  = run (Client.init probe metrics) (Lifecycle.fields i).
Proof.
  split; [reflexivity|]. split; [reflexivity|].
  unfold Lifecycle.init, Client.init, run, checkAPIConnection,
    loadSustainabilityMetrics.
  cbn [fold_left perform].
  unfold checkAPIConnection, loadSustainabilityMetrics.
  destruct (succeeded probe) as [[service|]|]; cbn [ended final];
    destruct (succeeded metrics) as [[m|]|]; cbn [ended final]; repeat split.
Qed.

(** ** The environment *)

Lemma prefix_append (n rest : string) : String.prefix n (String.append n rest) = true.
Proof.
  induction n as [|a n IH]; [destruct rest; reflexivity|].
  cbn. destruct (ascii_dec a a) as [_|Hne]; [exact IH | contradiction].
Qed.

Lemma includes_append (before needle rest : string) :
  Environment.includes (String.append before (String.append needle rest)) needle
  = true.
Proof.
  induction before as [|a before IH].
  - destruct needle as [|b needle]; [destruct rest; reflexivity|].
    cbn [String.append Environment.includes].
    change (String b (String.append needle rest))
      with (String.append (String b needle) rest).
    now rewrite prefix_append.
  - cbn [String.append Environment.includes]. rewrite IH. apply orb_true_r.
Qed.

Lemma length_append (a b : string) :
  String.length (String.append a b) = (String.length a + String.length b)%nat.
Proof. induction a as [|c a IH]; cbn; [reflexivity | now rewrite IH]. Qed.

(** X17.  A host is taken for a Netlify deployment as soon as its name
    contains "netlify.app" or "netlify.com" anywhere (the test is a
    substring test, not a suffix test): the service is then the functions
    path on that same host, under the page's protocol.  The two production
    names and the local names never fall in this case by their own. *)
Theorem netlify_by_substring (protocol before rest needle : string) :
  needle = "netlify.app" \/ needle = "netlify.com" ->
  let hostname := String.append before (String.append needle rest) in
  Environment.detectEnvironment hostname protocol
  = String.append protocol
      (String.append "//" (String.append hostname "/.netlify/functions")).
Proof.
  intros Hneedle hostname.
  assert (Hinc : Environment.includes hostname "netlify.app"
                 || Environment.includes hostname "netlify.com" = true).
  { destruct Hneedle as [-> | ->]; unfold hostname; rewrite includes_append;
      [reflexivity | apply orb_true_r]. }
  unfold Environment.detectEnvironment.
  destruct (String.eqb_spec hostname "www.alphapiomega.com") as [E|_].
  { rewrite E in Hinc. discriminate Hinc. }
  destruct (String.eqb_spec hostname "alphapiomega.com") as [E|_].
  { rewrite E in Hinc. discriminate Hinc. }
  cbn [orb]. rewrite Hinc. reflexivity.
Qed.

Lemma netlify_by_substring_witness :
  Environment.detectEnvironment "netlify.app.example.org" "https:"
  = "https://netlify.app.example.org/.netlify/functions".
Proof.
  apply (netlify_by_substring "https:" "" ".example.org" "netlify.app").
  left. reflexivity.
Defined.

(** X18.  The local development service, http://localhost:5000, is chosen
    exactly for the host names "localhost" and "127.0.0.1", whatever the
    protocol of the page; every other host gets a service on
    www.alphapiomega.com or on its own Netlify functions. *)
Theorem local_service_only_locally (hostname protocol : string) :
  Environment.detectEnvironment hostname protocol = "http://localhost:5000"
  <-> hostname = "localhost" \/ hostname = "127.0.0.1".
Proof.
  split.
  - unfold Environment.detectEnvironment.
    destruct (String.eqb hostname "www.alphapiomega.com"
              || String.eqb hostname "alphapiomega.com").
    { intros H. apply (f_equal String.length) in H.
      rewrite length_append in H. cbn in H. lia. }
    destruct (Environment.includes hostname "netlify.app"
              || Environment.includes hostname "netlify.com") eqn:Hinc.
    { intros H. apply (f_equal String.length) in H.
      rewrite !length_append in H. cbn in H.
      destruct hostname; [discriminate Hinc | cbn in H; lia]. }
    destruct (String.eqb_spec hostname "localhost") as [E|_]; [now left|].
    destruct (String.eqb_spec hostname "127.0.0.1") as [E|_]; [now right|].
    cbn. discriminate.
  - intros [-> | ->]; reflexivity.
Qed.

(** ** The Node.js bridge *)

Lemma jseqb_eq (a b : jsstring) : Runner.jseqb a b = true <-> a = b.
Proof.
  revert b. induction a as [|x a IH]; intros [|y b]; cbn; split;
    try discriminate; try reflexivity.
  - intros H. apply andb_true_iff in H as [Hx Ha].
    apply Z.eqb_eq in Hx. apply IH in Ha. now subst.
  - intros H. injection H as -> ->.
    rewrite Z.eqb_refl. apply IH. reflexivity.
Qed.

(** X19.  [buildArgs] always puts the script first.  It forwards a text only
    in a mode other than 'interactive' and 'demo', and only a non-empty one,
    as the last two arguments after [--mode mode]; in the modes
    'interactive' and 'demo', and for a missing or empty text, the text is
    dropped and the arguments are those of the call without text. *)
Theorem buildArgs_forwards_text (mode : jsstring) (text : option jsstring) :
  hd_error (Runner.buildArgs mode text) = Some Runner.pythonScript /\
  (mode = text_of "interactive" \/ mode = text_of "demo"
   \/ text = None \/ text = Some [] ->
   Runner.buildArgs mode text = Runner.buildArgs mode None) /\
  (forall t, mode <> text_of "interactive" -> mode <> text_of "demo" ->
             text = Some t -> t <> [] ->
             Runner.buildArgs mode text
             = [Runner.pythonScript; text_of "--mode"; mode; text_of "--text"; t]).
Proof.
  unfold Runner.buildArgs.
  destruct (Runner.jseqb mode (text_of "interactive")) eqn:Hi.
  { split; [reflexivity|]. split; [reflexivity|].
    intros t Hni. apply jseqb_eq in Hi. contradiction. }
  destruct (Runner.jseqb mode (text_of "demo")) eqn:Hd.
  { split; [reflexivity|]. split; [reflexivity|].
    intros t _ Hnd. apply jseqb_eq in Hd. contradiction. }
  cbn [negb]. split; [destruct text as [[|c t]|]; reflexivity|]. split.
  - intros [H | [H | [-> | ->]]]; try reflexivity.
    + apply jseqb_eq in H. rewrite H in Hi. discriminate Hi.
    + apply jseqb_eq in H. rewrite H in Hd. discriminate Hd.
  - intros t _ _ -> Hne. destruct t as [|c t]; [contradiction | reflexivity].
Qed.

Lemma buildArgs_forwards_text_witness :
  Runner.buildArgs (text_of "interactive") (Some (text_of "hello"))
  = Runner.buildArgs (text_of "interactive") None.
Proof.
  destruct (buildArgs_forwards_text (text_of "interactive") (Some (text_of "hello")))
    as (_ & H & _).
  apply H. left. reflexivity.
Defined.

(** Splitting and joining on one separator are inverse to each other, and
    the first piece holds no separator. *)
Lemma join_split (sep : Z) (s : jsstring) :
  Runner.join sep (fst (Runner.split sep s) :: snd (Runner.split sep s)) = s /\
  ~ In sep (fst (Runner.split sep s)).
Proof.
  induction s as [|c s [IHj IHn]].
  - cbn. tauto.
  - cbn [Runner.split]. destruct (Runner.split sep s) as [piece pieces].
    cbn [fst snd] in *.
    destruct (Z.eqb_spec c sep) as [->|Hne]; cbn [fst snd].
    + split; [|intros []].
      change (Runner.join sep ([] :: piece :: pieces))
        with ([] ++ sep :: Runner.join sep (piece :: pieces)).
      now rewrite IHj.
    + split.
      * destruct pieces as [|q pieces]; cbn [Runner.join] in *.
        -- now rewrite IHj.
        -- rewrite <- IHj. reflexivity.
      * intros [H|H]; [now subst | contradiction].
Qed.

(** X20.  Parsing a line loses nothing of it: the command is the part of
    the trimmed line before its first space and holds no space, and the
    text is everything after that space, inner and repeated spaces
    included; when the trimmed line has no space the text is empty. *)
Theorem parse_recovers_line (input : jsstring) :
  let command := fst (Runner.parse input) in
  let text := snd (Runner.parse input) in
  ~ In 32 command /\
  (In 32 (Runner.trim input) -> Runner.trim input = command ++ 32 :: text) /\
  (~ In 32 (Runner.trim input) -> Runner.trim input = command /\ text = []).
Proof.
  unfold Runner.parse.
  destruct (join_split 32 (Runner.trim input)) as [Hj Hn].
  destruct (Runner.split 32 (Runner.trim input)) as [command args].
  cbn [fst snd] in *.
  split; [exact Hn|].
  destruct args as [|a args].
  - cbn [Runner.join] in Hj. split.
    + intros Hin. rewrite <- Hj in Hin. contradiction.
    + intros _. split; [symmetry; exact Hj | reflexivity].
  - change (Runner.join 32 (command :: a :: args))
      with (command ++ 32 :: Runner.join 32 (a :: args)) in Hj.
    split.
    + intros _. symmetry. exact Hj.
    + intros Hnot. exfalso. apply Hnot. rewrite <- Hj.
      apply in_or_app. right. left. reflexivity.
Qed.

Lemma parse_recovers_line_witness :
  Runner.trim (text_of "  Analyze  hello   world  ")
  = fst (Runner.parse (text_of "  Analyze  hello   world  "))
    ++ 32 :: snd (Runner.parse (text_of "  Analyze  hello   world  ")).
Proof.
  destruct (parse_recovers_line (text_of "  Analyze  hello   world  "))
    as (_ & H & _).
  apply H. vm_compute. tauto.
Defined.

Lemma trimStart_head (s : jsstring) (c : Z) (rest : jsstring) :
  Runner.trimStart s = c :: rest -> Runner.is_whitespace c = false.
Proof.
  induction s as [|x s IH]; cbn; [discriminate|].
  destruct (Runner.is_whitespace x) eqn:Hx; [exact IH|].
  intros H. injection H as <- _. exact Hx.
Qed.

Lemma trimStart_snoc (l : jsstring) (c : Z) :
  Runner.is_whitespace c = false ->
  Runner.trimStart (l ++ [c]) = Runner.trimStart l ++ [c].
Proof.
  intros Hc. induction l as [|x l IH]; cbn.
  - now rewrite Hc.
  - destruct (Runner.is_whitespace x); [exact IH | reflexivity].
Qed.

Lemma trimEnd_cons (c : Z) (s : jsstring) :
  Runner.is_whitespace c = false ->
  Runner.trimEnd (c :: s) = c :: Runner.trimEnd s.
Proof.
  intros Hc. unfold Runner.trimEnd. cbn [rev].
  rewrite (trimStart_snoc _ _ Hc), rev_app_distr. reflexivity.
Qed.

(** A trimmed line that is not empty starts with a code unit that is not
    white space. *)
Lemma trim_head (input : jsstring) :
  Runner.trim input = []
  \/ exists c rest, Runner.trim input = c :: rest /\ Runner.is_whitespace c = false.
Proof.
  unfold Runner.trim.
  destruct (Runner.trimStart input) as [|c rest] eqn:Ht; [left; reflexivity|].
  right. pose proof (trimStart_head _ _ _ Ht) as Hc.
  exists c, (Runner.trimEnd rest). split; [apply trimEnd_cons, Hc | exact Hc].
Qed.

(** X21.  A line of white space only is ignored without a message, and it
    is the only kind of line that is: every other line has a non-empty
    command word (the trimmed line cannot start with a space) and gets an
    action or the unknown-command message. *)
Theorem blank_lines_are_ignored (input : jsstring) :
  (Runner.trim input = [] -> Runner.dispatch input = Runner.Ignore) /\
  (Runner.trim input <> [] ->
   fst (Runner.parse input) <> [] /\ Runner.dispatch input <> Runner.Ignore).
Proof.
  split.
  - intros H. unfold Runner.dispatch, Runner.parse. rewrite H. reflexivity.
  - intros Hne.
    destruct (trim_head input) as [H | (c & rest & Ht & Hc)]; [contradiction|].
    assert (Hc32 : (c =? 32) = false).
    { destruct (Z.eqb_spec c 32) as [->|]; [discriminate Hc | reflexivity]. }
    split.
    + unfold Runner.parse. rewrite Ht. cbn [Runner.split].
      destruct (Runner.split 32 rest) as [piece pieces]. rewrite Hc32.
      cbn. discriminate.
    + unfold Runner.dispatch.
      destruct (Runner.parse input) as [command text].
      rewrite Ht.
      repeat match goal with
             | |- context [if ?b then _ else _] => destruct b
             end; discriminate.
Qed.

Lemma blank_lines_are_ignored_witness :
  Runner.dispatch (text_of "   ") = Runner.Ignore.
Proof.
  apply (proj1 (blank_lines_are_ignored (text_of "   "))). reflexivity.
Defined.

(** X22.  The loop runs an analysis only for the commands analyze, math,
    astro and logo (in any letter case), with the modes full,
    math_analysis, astronomy and logograms, and only when a text follows
    the command: the text analysed is never empty and is exactly what
    follows the first space of the trimmed line. *)
Theorem analysis_needs_text (input text : jsstring) (mode : string) :
  Runner.dispatch input = Runner.Analyze text mode ->
  text <> [] /\
  text = snd (Runner.parse input) /\
  In (Runner.toLowerCase (fst (Runner.parse input)), mode)
     [(text_of "analyze", "full"); (text_of "math", "math_analysis");
      (text_of "astro", "astronomy"); (text_of "logo", "logograms")].
Proof.
  unfold Runner.dispatch.
  destruct (Runner.parse input) as [command t]. cbn [fst snd].
  destruct (Runner.jseqb (Runner.toLowerCase command) (text_of "analyze")) eqn:E1.
  { apply jseqb_eq in E1. rewrite E1.
    destruct t; [discriminate|]. intros H. injection H as <- <-.
    split; [discriminate|]. split; [reflexivity|]. left. reflexivity. }
  destruct (Runner.jseqb (Runner.toLowerCase command) (text_of "math")) eqn:E2.
  { apply jseqb_eq in E2. rewrite E2.
    destruct t; [discriminate|]. intros H. injection H as <- <-.
    split; [discriminate|]. split; [reflexivity|]. right. left. reflexivity. }
  destruct (Runner.jseqb (Runner.toLowerCase command) (text_of "astro")) eqn:E3.
  { apply jseqb_eq in E3. rewrite E3.
    destruct t; [discriminate|]. intros H. injection H as <- <-.
    split; [discriminate|]. split; [reflexivity|]. right. right. left. reflexivity. }
  destruct (Runner.jseqb (Runner.toLowerCase command) (text_of "logo")) eqn:E4.
  { apply jseqb_eq in E4. rewrite E4.
    destruct t; [discriminate|]. intros H. injection H as <- <-.
    split; [discriminate|]. split; [reflexivity|].
    right. right. right. left. reflexivity. }
  repeat match goal with
         | |- context [if ?b then _ else _] => destruct b
         end; discriminate.
Qed.

Lemma analysis_needs_text_witness :
  text_of "2+2 = 4" <> [] /\
  text_of "2+2 = 4" = snd (Runner.parse (text_of "  MATH 2+2 = 4 ")).
Proof.
  destruct (analysis_needs_text (text_of "  MATH 2+2 = 4 ") (text_of "2+2 = 4")
              "math_analysis" eq_refl) as (H1 & H2 & _).
  split; assumption.
Defined.
